(** * excelToBrd: a shallow embedding of the Excel/CSV to BRD converter

    Source: [examples/LanguagePoliteness/brds/excelToBrd.py], class
    [BRDGenerator].  The development follows the Python file method by
    method.

    - Python [str] values are Rocq strings whose characters are code points
      below 256; [int] values are [Z]; [str(int)] is stdpp's [pretty].
    - A [dict] is an insertion-ordered association list ([PyDict]).
    - An [xml.etree.ElementTree.Element] is a tree [Element].
    - A pandas [DataFrame] read with [dtype=str] is a list of labelled rows
      whose cells are [Some s] or [None] (NaN).
    - The object state ([self.node_counter], [self.edge_counter]), the
      console, the files written and the positions in the external random
      sources are threaded through a state-and-exception monad [M].
    - The external collaborators ([uuid.uuid4], [jieba.cut],
      [random.shuffle], [DataFrame.sample]) are section variables. *)

From Stdlib Require Import ZArith Lia Ascii.
From stdpp Require Import base list strings pretty.

Open Scope Z_scope.

(** ** Python string primitives *)

Module Py.

(** [str.isspace] on one character, for code points below 256. *)
Definition is_space (c : ascii) : bool :=
  let n := nat_of_ascii c in
  ((9 <=? n) && (n <=? 13) || (28 <=? n) && (n <=? 32)
   || (n =? 133) || (n =? 160))%nat.

Fixpoint lstrip (s : string) : string :=
  match s with
  | EmptyString => EmptyString
  | String c s' => if is_space c then lstrip s' else s
  end.

Fixpoint rstrip (s : string) : string :=
  match s with
  | EmptyString => EmptyString
  | String c s' =>
      match rstrip s' with
      | EmptyString => if is_space c then EmptyString else String c EmptyString
      | r => String c r
      end
  end.

(** [s.strip()] *)
Definition strip (s : string) : string := rstrip (lstrip s).

(** Truth value of a string: non-empty. *)
Definition truthy (s : string) : bool :=
  match s with EmptyString => false | String _ _ => true end.

(** [s.startswith(p)] *)
Fixpoint startswith (p s : string) : bool :=
  match p, s with
  | EmptyString, _ => true
  | String a p', String b s' => Ascii.eqb a b && startswith p' s'
  | String _ _, EmptyString => false
  end.

(** [s.endswith(p)] *)
Fixpoint endswith (p s : string) : bool :=
  String.eqb s p ||
  match s with
  | EmptyString => false
  | String _ s' => endswith p s'
  end.

(** [s[a:-b]] for literal [a >= 0] and [b > 0]. *)
Definition slice (a b : nat) (s : string) : string :=
  String.substring a (String.length s - a - b) s.

(** [s.replace(c, d)] for one-character [c] and [d]. *)
Fixpoint replace (c d : ascii) (s : string) : string :=
  match s with
  | EmptyString => EmptyString
  | String x s' => String (if Ascii.eqb x c then d else x) (replace c d s')
  end.

(** [s.split()]: the maximal runs of non-space characters.  [cur] is the
    run being read, reversed. *)
Fixpoint split_go (cur : list ascii) (s : string) : list string :=
  let flush := match cur with
               | [] => []
               | _ => [String.string_of_list_ascii (rev cur)]
               end in
  match s with
  | EmptyString => flush
  | String c s' =>
      if is_space c then flush ++ split_go [] s' else split_go (c :: cur) s'
  end.

Definition split (s : string) : list string := split_go [] s.

(** [s.lower()], for code points below 256: the letters A to Z and the
    capital letters of Latin-1 (192 to 222 but the sign 215). *)
Fixpoint lower (s : string) : string :=
  match s with
  | EmptyString => EmptyString
  | String c s' =>
      let n := nat_of_ascii c in
      String (if (65 <=? n) && (n <=? 90)
                 || (192 <=? n) && (n <=? 222) && negb (n =? 215)
              then ascii_of_nat (n + 32) else c)%nat
             (lower s')
  end.

(** [str(n)] for an [int]. *)
Definition str (n : Z) : string := pretty n.

(** [range(a, b)] *)
Definition range (a b : Z) : list Z :=
  (λ k : nat, a + Z.of_nat k) <$> seq 0 (Z.to_nat (b - a)).

(** [enumerate(l, start)] *)
Definition enumerate {A} (start : nat) (l : list A) : list (nat * A) :=
  zip (seq start (length l)) l.

(** The double-quote character, for f-strings that contain one. *)
Definition dquote : string := String (ascii_of_nat 34) EmptyString.

End Py.

(** ** Python dictionaries with string keys

    Insertion-ordered: assigning to an existing key keeps its position. *)

Module PyDict.

Definition dict : Type := list (string * string).

Definition empty : dict := [].

(** [d.get(k)] as an option; [k in d] is [contains]. *)
Fixpoint get (d : dict) (k : string) : option string :=
  match d with
  | [] => None
  | (k', v) :: d' => if String.eqb k' k then Some v else get d' k
  end.

Definition contains (d : dict) (k : string) : bool :=
  match get d k with Some _ => true | None => false end.

(** [d[k] = v] *)
Fixpoint set (d : dict) (k v : string) : dict :=
  match d with
  | [] => [(k, v)]
  | (k', v') :: d' =>
      if String.eqb k' k then (k', v) :: d' else (k', v') :: set d' k v
  end.

Definition keys (d : dict) : list string := d.*1.

Definition items (d : dict) : list (string * string) := d.

(** [len(d)] *)
Definition len (d : dict) : nat := length d.

End PyDict.

Abbreviation dict := PyDict.dict.

(** ** ElementTree elements *)

#[warnings="-register-all"]
Inductive Element : Type :=
  Elem (tag : string) (attrib : list (string * string))
       (text : option string) (children : list Element).

Module ET.

Definition tag (e : Element) : string := let 'Elem t _ _ _ := e in t.
Definition attrib (e : Element) := let 'Elem _ a _ _ := e in a.
Definition text (e : Element) : option string := let 'Elem _ _ t _ := e in t.
Definition children (e : Element) : list Element := let 'Elem _ _ _ c := e in c.

(** [e.findall(t)]: the direct children with tag [t], in document order. *)
Definition findall (t : string) (e : Element) : list Element :=
  List.filter (λ c, String.eqb (tag c) t) (children e).

(** [e.find(t)]: the first such child. *)
Definition find (t : string) (e : Element) : option Element :=
  head (findall t e).

(** [e.findtext(p)] along a path of tags. *)
Fixpoint findtext (path : list string) (e : Element) : option string :=
  match path with
  | [] => text e
  | t :: path' => find t e ≫= findtext path'
  end.

(** [e.find(p)] along a path of tags. *)
Fixpoint findpath (path : list string) (e : Element) : option Element :=
  match path with
  | [] => Some e
  | t :: path' => find t e ≫= findpath path'
  end.

(** An element with no attribute and no child, holding a text. *)
Definition leaf (t s : string) : Element := Elem t [] (Some s) [].

(** An element with nothing in it. *)
Definition void (t : string) : Element := Elem t [] None [].

End ET.

(** ** The state of a run

    [node_counter] and [edge_counter] are the two attributes of the
    [BRDGenerator] object.  [uuid_calls] and [shuffle_calls] count the calls
    made so far to [uuid.uuid4] and [random.shuffle]: the k-th call returns
    what the corresponding oracle gives at [k].  [stdout] and [files] record
    what was printed and written, oldest first. *)

Inductive exn : Type := IndexError | KeyError | ValueError.

Inductive Output : Type :=
| Print (line : string)
| PrintList (before : string) (items : list string)
| PrintException (before : string) (e : exn).

(** A file written by the run: [Path(file_dir) / file_name], holding the
    declaration line followed by the pretty-printed [file_root]. *)
Record File : Type := mkFile {
  file_dir : string;
  file_name : string;
  file_declaration : string;
  file_root : Element }.

Record World : Type := mkWorld {
  node_counter : Z;
  edge_counter : Z;
  uuid_calls : nat;
  shuffle_calls : nat;
  stdout : list Output;
  files : list File }.

(** [BRDGenerator.__init__] *)
Definition init : World :=
  {| node_counter := 1; edge_counter := 1; uuid_calls := 0;
     shuffle_calls := 0; stdout := []; files := [] |}.

Inductive result (A : Type) : Type :=
| Ok (a : A)
| Raise (e : exn).
Arguments Ok {A} a.
Arguments Raise {A} e.

Definition M (A : Type) : Type := World → result A * World.

Definition ret {A} (a : A) : M A := λ w, (Ok a, w).

Definition bind {A B} (m : M A) (f : A → M B) : M B :=
  λ w, match m w with
       | (Ok a, w') => f a w'
       | (Raise e, w') => (Raise e, w')
       end.

Definition raise {A} (e : exn) : M A := λ w, (Raise e, w).

#[global] Instance M_ret : MRet M := @ret.
#[global] Instance M_bind : MBind M := λ A B f m, bind m f.

(** [l[i]], raising [IndexError] out of range. *)
Definition index {A} (l : list A) (i : nat) : M A :=
  match l !! i with
  | Some a => ret a
  | None => raise IndexError
  end.

(** A pure computation that may raise, run inside [M]. *)
Definition lift {A} (r : result A) : M A := λ w, (r, w).

(** [for a in l: s = body(a, s)] *)
Fixpoint for_each {A S} (l : list A) (body : A → S → M S) (s : S) : M S :=
  match l with
  | [] => ret s
  | a :: l' => s' ← body a s; for_each l' body s'
  end.

Definition print (line : string) : M unit :=
  λ w, (Ok tt, {| node_counter := node_counter w; edge_counter := edge_counter w;
                  uuid_calls := uuid_calls w; shuffle_calls := shuffle_calls w;
                  stdout := stdout w ++ [Print line]; files := files w |}).

Definition print_list (before : string) (items : list string) : M unit :=
  λ w, (Ok tt, {| node_counter := node_counter w; edge_counter := edge_counter w;
                  uuid_calls := uuid_calls w; shuffle_calls := shuffle_calls w;
                  stdout := stdout w ++ [PrintList before items]; files := files w |}).

Definition print_exception (before : string) (e : exn) : M unit :=
  λ w, (Ok tt, {| node_counter := node_counter w; edge_counter := edge_counter w;
                  uuid_calls := uuid_calls w; shuffle_calls := shuffle_calls w;
                  stdout := stdout w ++ [PrintException before e];
                  files := files w |}).

(** [with open(dir / name, 'w') as f: f.write(declaration + body)] *)
Definition write_file (dir name declaration : string) (root : Element)
    : M unit :=
  λ w, (Ok tt, {| node_counter := node_counter w; edge_counter := edge_counter w;
                  uuid_calls := uuid_calls w; shuffle_calls := shuffle_calls w;
                  stdout := stdout w;
                  files := files w ++ [mkFile dir name declaration root] |}).

Definition get_node_counter : M Z := λ w, (Ok (node_counter w), w).
Definition get_edge_counter : M Z := λ w, (Ok (edge_counter w), w).

Definition set_node_counter (n : Z) : M unit :=
  λ w, (Ok tt, {| node_counter := n; edge_counter := edge_counter w;
                  uuid_calls := uuid_calls w; shuffle_calls := shuffle_calls w;
                  stdout := stdout w; files := files w |}).

Definition set_edge_counter (n : Z) : M unit :=
  λ w, (Ok tt, {| node_counter := node_counter w; edge_counter := n;
                  uuid_calls := uuid_calls w; shuffle_calls := shuffle_calls w;
                  stdout := stdout w; files := files w |}).

(** ** Steps

    A step is the tuple [(field, value, action, actor)] that
    [generate_brd] appends to [steps]. *)

Definition Step : Type := string * string * string * string.

Definition step_field (s : Step) : string := s.1.1.1.
Definition step_value (s : Step) : string := s.1.1.2.
Definition step_action (s : Step) : string := s.1.2.
Definition step_actor (s : Step) : string := s.2.

Definition TUTOR : string := "Tutor (unevaluated)".
Definition STUDENT : string := "Student".

(** The steps computed by [generate_brd] (the part of its body from
    "Collect person-a-word fields in order" to "Done button (always
    last)"); it reads [problem_data] and touches no state. *)
Definition plan_steps (problem_data : dict) : list Step :=
  (* Collect person-a-word fields in order *)
  let person_words :=
    omap (λ i, let field_name := "person-a-word-" +:+ Py.str i in
               value ← PyDict.get problem_data field_name;
               Some (field_name, value))
         (Py.range 2 16) in
  let steps : list Step := [] in
  (* Basic steps *)
  let steps :=
    steps ++
    omap (λ field, value ← PyDict.get problem_data field;
                   Some (field, value, "UpdateTextField", TUTOR))
         ["situation-input"; "relationship-a-input"; "relationship-b-input"] in
  (* Person word steps (excluding person-a-word-1) *)
  let steps :=
    steps ++
    ((λ '(field_name, value), (field_name, value, "UpdateTextField", TUTOR))
       <$> person_words) in
  (* Option word steps *)
  let steps :=
    steps ++
    omap (λ i, let field_name := "option-word-" +:+ Py.str i in
               value ← PyDict.get problem_data field_name;
               Some (field_name, value, "UpdateTextField", TUTOR))
         (Py.range 1 6) in
  (* Final 3 steps (always in this order) *)
  let steps :=
    steps ++
    match PyDict.get problem_data "formal-checkbox" with
    | Some value => [("formal-checkbox", value, "UpdateTextField", STUDENT)]
    | None => []
    end in
  let steps :=
    steps ++
    match PyDict.get problem_data "person-a-word-1" with
    | Some value => [("person-a-word-1", value, "UpdateTextField", STUDENT)]
    | None => []
    end in
  (* Done button (always last) *)
  steps ++ [("done", "-1", "ButtonPressed", STUDENT)].

(** ** The elements built by [BRDGenerator]

    Each [*_element] function is the tree that the corresponding
    [create_*] method has assembled when it returns, as a function of the
    values the method read from its arguments and from [self]. *)

(** [create_matcher] *)
Definition create_matcher (matcher_type value : string) : Element :=
  Elem "matcher" [] None
    [ ET.leaf "matcherType" matcher_type;
      Elem "matcherParameter" [("name", "single")] (Some value) [] ].

Definition action_label_element
    (unique_id transaction_id selection action input_value hint_message
     actor : string) : Element :=
  Elem "actionLabel"
    [("preferPathMark", "true"); ("minTraversals", "1"); ("maxTraversals", "1")]
    None
    [ ET.void "studentHintRequest";
      ET.void "stepSuccessfulCompletion";
      ET.void "stepStudentError";
      ET.leaf "uniqueID" unique_id;
      Elem "message" [] None
        [ ET.leaf "verb" "NotePropertySet";
          Elem "properties" [] None
            [ ET.leaf "MessageType" "InterfaceAction";
              ET.leaf "transaction_id" transaction_id;
              Elem "Selection" [] None [ET.leaf "value" selection];
              Elem "Action" [] None [ET.leaf "value" action];
              Elem "Input" [] None [ET.leaf "value" input_value] ] ];
      ET.void "buggyMessage";
      ET.void "successMessage";
      ET.leaf "hintMessage" hint_message;
      ET.void "callbackFn";
      ET.leaf "actionType" "Correct Action";
      ET.leaf "oldActionType" "Correct Action";
      ET.leaf "checkedStatus" "Never Checked";
      Elem "matchers" [("Concatenation", "true")] None
        [ Elem "Selection" [] None [create_matcher "ExactMatcher" selection];
          Elem "Action" [] None [create_matcher "ExactMatcher" action];
          Elem "Input" [] None [create_matcher "ExactMatcher" input_value];
          Elem "Actor" [("linkTriggered", "false")] (Some actor) [] ] ].

Definition node_element (text unique_id x y : string) : Element :=
  Elem "node" [("locked", "false"); ("doneState", "false")] None
    [ ET.leaf "text" text;
      ET.leaf "uniqueID" unique_id;
      Elem "dimension" [] None [ET.leaf "x" x; ET.leaf "y" y] ].

Definition edge_element (source_id dest_id : string) (action_label : Element)
    : Element :=
  Elem "edge" [] None
    [ action_label;
      ET.leaf "preCheckedStatus" "No-Applicable";
      Elem "rule" [] None [ET.leaf "text" "unnamed"; ET.leaf "indicator" "-1"];
      ET.leaf "sourceID" source_id;
      ET.leaf "destID" dest_id;
      ET.leaf "traversalCount" "0" ].

Definition root_attrib : list (string * string) :=
  [ ("firstCheckAllStates", "true"); ("caseInsensitive", "true");
    ("unordered", "true"); ("lockWidget", "true");
    ("hintPolicy", "Use Both Kinds of Bias"); ("version", "4.0");
    ("suppressStudentFeedback", "Show All Feedback");
    ("highlightRightSelection", "true"); ("confirmDone", "false");
    ("startStateNodeName", "%(startStateNodeName)%");
    ("tutorType", "Example-tracing Tutor") ].

Definition start_messages : Element :=
  Elem "startNodeMessages" [] None
    [ Elem "message" [] None
        [ ET.leaf "verb" "NotePropertySet";
          Elem "properties" [] None
            [ ET.leaf "MessageType" "StartProblem";
              ET.leaf "ProblemName" "empty" ] ];
      Elem "message" [] None
        [ ET.leaf "verb" "NotePropertySet";
          Elem "properties" [] None
            [ ET.leaf "MessageType" "StartStateEnd" ] ] ].

Definition edges_groups : Element :=
  Elem "EdgesGroups" [("ordered", "false")] None [].

Definition x_positions : list Z := [217; -83].
Definition y_increment : Z := 160.

(** The hint of an edge, as [generate_brd] chooses it. *)
Definition hint_message_of (field value : string) : string :=
  if String.eqb field "done"
  then "Please click the highlighted button."
  else "Please enter " +:+ Py.dquote +:+ value +:+ Py.dquote
       +:+ " in the highlighted field.".

Definition XML_DECLARATION : string :=
  "<?xml version=" +:+ Py.dquote +:+ "1.0" +:+ Py.dquote +:+ " standalone="
  +:+ Py.dquote +:+ "yes" +:+ Py.dquote +:+ "?>".

(** ** The methods of [BRDGenerator] that build a document *)

Section Generator.

(** [uuid4 k] is [str(uuid.uuid4())] at the k-th call of the run. *)
Variable uuid4 : nat → string.

(** [generate_uuid] *)
Definition generate_uuid : M string :=
  λ w, (Ok (uuid4 (uuid_calls w)),
        {| node_counter := node_counter w; edge_counter := edge_counter w;
           uuid_calls := S (uuid_calls w); shuffle_calls := shuffle_calls w;
           stdout := stdout w; files := files w |}).

(** [create_action_label]; [actor = None] is a call that leaves the
    keyword argument to its default. *)
Definition create_action_label
    (selection action input_value hint_message : string)
    (actor : option string) : M Element :=
  let actor := default TUTOR actor in
  unique_id ← get_edge_counter;
  transaction_id ← generate_uuid;
  mret (action_label_element (Py.str unique_id) transaction_id selection
          action input_value hint_message actor).

(** [create_node] *)
Definition create_node (text : string) (x_pos y_pos : Z) : M (Element * Z) :=
  unique_id ← get_node_counter;
  let node := node_element text (Py.str unique_id) (Py.str x_pos)
                (Py.str y_pos) in
  current_id ← get_node_counter;
  set_node_counter (current_id + 1);;
  mret (node, current_id).

(** [create_edge] *)
Definition create_edge (source_id dest_id : Z) (action_label : Element)
    : M Element :=
  let edge := edge_element (Py.str source_id) (Py.str dest_id) action_label in
  n ← get_edge_counter;
  set_edge_counter (n + 1);;
  mret edge.

(** The body of the loop "Create nodes for each step"; the loop carries
    [nodes], the children of [root] and [y_pos]. *)
Definition node_step (it : nat * Step)
    (acc : list (Element * Z) * list Element * Z)
    : M (list (Element * Z) * list Element * Z) :=
  let '(i, _) := it in
  let '(nodes, kids, y_pos) := acc in
  x_pos ← index x_positions ((i + 1) mod 2)%nat;
  let node_text := "state" +:+ Py.str (Z.of_nat i + 2) in
  '(node, node_id) ← create_node node_text x_pos y_pos;
  mret (nodes ++ [(node, node_id)], kids ++ [node], y_pos + y_increment).

(** The body of the loop "Create edges"; the loop carries the children
    of [root]. *)
Definition edge_step (nodes : list (Element * Z)) (it : nat * Step)
    (kids : list Element) : M (list Element) :=
  let '(i, (field, value, action, actor)) := it in
  let hint_message := hint_message_of field value in
  action_label ←
    create_action_label field action value hint_message (Some actor);
  src ← index nodes i;
  dst ← index nodes (i + 1)%nat;
  edge ← create_edge src.2 dst.2 action_label;
  mret (kids ++ [edge]).

(** [generate_brd], from "Create nodes" to its [return]: the graph of
    a step sequence. *)
Definition build_graph (steps : list Step) : M Element :=
  let kids := [start_messages] in
  (* Create nodes *)
  let nodes : list (Element * Z) := [] in
  let y_pos := 25 in
  (* First node (empty) *)
  x_pos ← index x_positions 0;
  '(node, node_id) ← create_node "empty" x_pos y_pos;
  let nodes := nodes ++ [(node, node_id)] in
  let kids := kids ++ [node] in
  let y_pos := y_pos + y_increment in
  (* Create nodes for each step *)
  '(nodes, kids, _) ←
    for_each (Py.enumerate 0 steps) node_step (nodes, kids, y_pos);
  (* Create edges *)
  kids ← for_each (Py.enumerate 0 steps) (edge_step nodes) kids;
  (* Add EdgesGroups *)
  mret (Elem "stateGraph" root_attrib None (kids ++ [edges_groups])).

(** [generate_brd] *)
Definition generate_brd (problem_data : dict) (problem_name : string)
    : M Element :=
  let steps := plan_steps problem_data in
  build_graph steps.

End Generator.

(** ** pandas tables

    A cell of a table read with [dtype=str] is a string or NaN ([None]).
    A row handed out by [iterrows] is a [Series]: its cells labelled by
    the column names. *)

Definition cell : Type := option string.
Definition Series : Type := list (string * cell).

Record DataFrame : Type := mkDataFrame {
  columns : list string;
  rows : list (Z * list cell) }.

#[global] Instance result_ret : MRet result := @Ok.
#[global] Instance result_bind : MBind result :=
  λ A B f r, match r with Ok a => f a | Raise e => Raise e end.

Module PD.

(** [pd.notna(c)] *)
Definition notna (c : cell) : bool :=
  match c with Some _ => true | None => false end.

(** [str(c)]: NaN prints as [nan]. *)
Definition str (c : cell) : string := default "nan" c.

(** [len(df)] *)
Definition len (df : DataFrame) : nat := length (rows df).

(** [df.iterrows()] *)
Definition iterrows (df : DataFrame) : list (Z * Series) :=
  (λ '(idx, cells), (idx, zip (columns df) cells)) <$> rows df.

(** [row.iloc[i]] *)
Definition iloc (row : Series) (i : nat) : result cell :=
  match row !! i with
  | Some (_, c) => Ok c
  | None => Raise IndexError
  end.

(** [row.get(label)], [None] when the label is missing. *)
Fixpoint get (row : Series) (label : string) : option cell :=
  match row with
  | [] => None
  | (l, c) :: row' => if String.eqb l label then Some c else get row' label
  end.

(** [row[label]] *)
Definition getitem (row : Series) (label : string) : result cell :=
  match get row label with
  | Some c => Ok c
  | None => Raise KeyError
  end.

(** [df[labels]]: the named columns, in the order given. *)
Definition select (df : DataFrame) (labels : list string) : result DataFrame :=
  rows' ← mapM (M := result)
            (λ '(idx, cells),
               cells' ← mapM (M := result)
                          (getitem (zip (columns df) cells)) labels;
               Ok (idx, cells'))
            (rows df);
  Ok (mkDataFrame labels rows').

(** [df.tail(n)] for [n >= 0] *)
Definition tail (n : nat) (df : DataFrame) : DataFrame :=
  mkDataFrame (columns df) (drop (length (rows df) - n)%nat (rows df)).

(** [df.iloc[:n]] for [n >= 0] *)
Definition head (n : nat) (df : DataFrame) : DataFrame :=
  mkDataFrame (columns df) (take n (rows df)).

(** [df.reset_index(drop=True)] *)
Definition reset_index (df : DataFrame) : DataFrame :=
  mkDataFrame (columns df)
    (zip (Z.of_nat <$> seq 0 (length (rows df))) ((rows df).*2)).

End PD.

(** ** binary64 arithmetic, as far as [int(n_rows * 0.2)] needs it

    A non-negative finite double is [m * 2^e] with [0 <= m < 2^53].
    [round p e] is the double nearest to the exact value [p * 2^e], ties
    to even. *)

Module Float64.

Definition float : Type := Z * Z.

Definition round (p e : Z) : float :=
  let s := Z.log2 p + 1 - 53 in
  if s <=? 0 then (p, e)
  else
    let q := p / 2 ^ s in
    let r := p mod 2 ^ s in
    let half := 2 ^ (s - 1) in
    let q' := if (half <? r) || ((r =? half) && Z.odd q) then q + 1 else q in
    (q', e + s).

(** [float(n)] for an [int] [n >= 0] *)
Definition of_int (n : Z) : float := round n 0.

(** [a * b] *)
Definition mul (a b : float) : float := round (a.1 * b.1) (a.2 + b.2).

(** The literal [0.2], that is 0x3FC999999999999A. *)
Definition c0_2 : float := (7205759403792794, -55).

(** [int(x)] for [x >= 0]: truncation. *)
Definition to_int (x : float) : Z :=
  if 0 <=? x.2 then x.1 * 2 ^ x.2 else x.1 / 2 ^ (- x.2).

End Float64.

(** ** Whole-table mode *)

(** "Clean field name - remove %(...)% wrapper if present": the two
    lines of [extract_problem_data] under that comment. *)
Definition clean_field_name (field_name : string) : string :=
  if Py.startswith "%(" field_name && Py.endswith ")%" field_name
  then Py.slice 2 2 field_name else field_name.

(** The body of the loop of [extract_problem_data], for one row. *)
Definition extract_row (problem_column : string) (row : Series)
    (problem_data : dict) : result dict :=
  field_name ← PD.iloc row 0;
  if PD.notna field_name && Py.truthy (Py.strip (PD.str field_name)) then
    let field_name := Py.strip (PD.str field_name) in
    let field_name := clean_field_name field_name in
    value ← PD.getitem row problem_column;
    if PD.notna value && Py.truthy (Py.strip (PD.str value))
    then Ok (PyDict.set problem_data field_name (Py.strip (PD.str value)))
    else Ok problem_data
  else Ok problem_data.

Fixpoint extract_rows (problem_column : string) (rows : list (Z * Series))
    (problem_data : dict) : result dict :=
  match rows with
  | [] => Ok problem_data
  | (_, row) :: rows' =>
      problem_data ← extract_row problem_column row problem_data;
      extract_rows problem_column rows' problem_data
  end.

(** [extract_problem_data] *)
Definition extract_problem_data (df : DataFrame) (problem_column : string)
    : result dict :=
  extract_rows problem_column (PD.iterrows df) PyDict.empty.

(** The dict comprehension of [process_excel_file]:
    [{k: v for k, v in problem_data.items()
      if v and v.strip() and v != 'nan' and not k.startswith('Unnamed')}] *)
Definition is_meaningful (k v : string) : bool :=
  Py.truthy v && Py.truthy (Py.strip v) && negb (String.eqb v "nan")
  && negb (Py.startswith "Unnamed" k).

Definition meaningful (problem_data : dict) : dict :=
  foldl (λ d '(k, v), if is_meaningful k v then PyDict.set d k v else d)
        PyDict.empty (PyDict.items problem_data).

(** [problem_name.replace(' ', '_').replace('/', '_').replace('\\', '_')] *)
Definition safe_filename_of (problem_name : string) : string :=
  Py.replace (ascii_of_nat 92) "_"
    (Py.replace "/" "_" (Py.replace " " "_" problem_name)).

(** [Path(dir) / name], printed. *)
Definition path_join (dir name : string) : string := dir +:+ "/" +:+ name.

(** How the body of a [for] loop ends: at its end or at a [continue]. *)
Definition continue : M unit := mret tt.

(** How [process_excel_file] ends: by returning or by [sys.exit]. *)
Inductive Exit : Type := Returned | SysExit (code : Z).

Definition n_test_of (n_rows : nat) : nat :=
  Z.to_nat
    (Z.max 1 (Float64.to_int
                (Float64.mul (Float64.of_int (Z.of_nat n_rows)) Float64.c0_2))).

Definition expected_cols : list string :=
  [ "Situation"; "Relationship-A"; "Relationship-B"; "Formality"; "Title";
    "Wrong Titles"; "Completed Sentence" ].

Section Run.

Variable uuid4 : nat → string.

(** [jieba_cut s] is [list(jieba.cut(s))]. *)
Variable jieba_cut : string → list string.

(** [random_shuffle k l] is [l] after the k-th call of
    [random.shuffle] of the run. *)
Variable random_shuffle : nat → list string → list string.

(** [df_sample r] is the rows of
    [df.sample(frac=1, random_state=42)] for a table of rows [r]. *)
Variable df_sample : list (Z * list cell) → list (Z * list cell).

Definition shuffle (l : list string) : M (list string) :=
  λ w, (Ok (random_shuffle (shuffle_calls w) l),
        {| node_counter := node_counter w; edge_counter := edge_counter w;
           uuid_calls := uuid_calls w; shuffle_calls := S (shuffle_calls w);
           stdout := stdout w; files := files w |}).

(** The body of the loop "Process each column" of
    [process_excel_file]. *)
Definition process_column (df : DataFrame) (output_dir : string)
    (col_index : nat) : M unit :=
  set_node_counter 1;;
  set_edge_counter 1;;
  problem_column ← index (columns df) col_index;
  let problem_name := problem_column in
  (* Skip columns that are unnamed or look like default pandas names *)
  if Py.startswith "Unnamed:" problem_name
     || negb (Py.truthy (Py.strip problem_name))
  then print ("Skipping unnamed/empty column: " +:+ problem_name);; continue
  else
    print ("Processing problem: " +:+ problem_name);;
    (* Extract problem data from this column *)
    problem_data ← lift (extract_problem_data df problem_column);
    match problem_data with
    | [] =>
        print ("  Skipping " +:+ problem_name +:+ " - no data found");;
        continue
    | _ =>
        let meaningful_data := meaningful problem_data in
        if (PyDict.len meaningful_data <? 2)%nat
        then
          print ("  Skipping " +:+ problem_name
                 +:+ " - insufficient meaningful data");;
          continue
        else
          print ("  Found "
                 +:+ Py.str (Z.of_nat (PyDict.len meaningful_data))
                 +:+ " meaningful fields");;
          print_list "  Fields: " (PyDict.keys meaningful_data);;
          (* Generate BRD XML *)
          brd_xml ← generate_brd uuid4 meaningful_data problem_name;
          (* Save to file *)
          let safe_filename := safe_filename_of problem_name in
          let output_file :=
            path_join output_dir (safe_filename +:+ ".brd") in
          write_file output_dir (safe_filename +:+ ".brd") XML_DECLARATION
            brd_xml;;
          print ("  Generated: " +:+ output_file)
    end.

(** The loop [for col_index in range(1, len(df.columns))]. *)
Definition process_columns (df : DataFrame) (output_dir : string)
    (col_indices : list nat) : M unit :=
  for_each col_indices (λ col_index _, process_column df output_dir col_index)
           tt.

(** ** Translation mode *)

(** The field record that [write_brd_files] builds for one row, before
    the 2step copy adds [formal-checkbox]. *)
Definition problem_data_1step_of (situation rel_a rel_b : string)
    (all_titles words : list string) : dict :=
  let problem_data_1step :=
    PyDict.set
      (PyDict.set
         (PyDict.set PyDict.empty "situation-input" situation)
         "relationship-a-input" rel_a)
      "relationship-b-input" rel_b in
  let problem_data_1step :=
    foldl (λ d '(i, w),
             PyDict.set d ("option-word-" +:+ Py.str (Z.of_nat i + 1)) w)
          problem_data_1step (Py.enumerate 0 all_titles) in
  foldl (λ d '(i, w),
           PyDict.set d ("person-a-word-" +:+ Py.str (Z.of_nat i + 1)) w)
        problem_data_1step (Py.enumerate 0 words).

(** [str(row.get(label, '')).strip()] *)
Definition row_field (row : Series) (label : string) : string :=
  Py.strip (match PD.get row label with
            | Some c => PD.str c
            | None => ""
            end).

(** The body of the loop of [write_brd_files]. *)
Definition write_brd_file (out_dir_1step out_dir_2step : string)
    (test_mode : bool) (it : nat * (Z * Series)) : M unit :=
  let '(count, (idx, row)) := it in
  let situation := row_field row "Situation" in
  let rel_a := row_field row "Relationship-A" in
  let rel_b := row_field row "Relationship-B" in
  let formality := row_field row "Formality" in
  let title := row_field row "Title" in
  let wrong_titles := row_field row "Wrong Titles" in
  let completed_sentence := row_field row "Completed Sentence" in
  let words :=
    if Py.truthy completed_sentence then jieba_cut completed_sentence
    else [] in
  (* 1step: do not use formal-checkbox *)
  (* Randomize correct and wrong titles *)
  let titles_list := if Py.truthy title then [title] else [] in
  let wrong_titles_list :=
    if Py.truthy wrong_titles
    then Py.strip <$>
           List.filter (λ w, Py.truthy (Py.strip w)) (Py.split wrong_titles)
    else [] in
  all_titles ← shuffle (titles_list ++ wrong_titles_list);
  let problem_data_1step :=
    problem_data_1step_of situation rel_a rel_b all_titles words in
  (* 2step: use formal-checkbox *)
  let problem_data_2step :=
    PyDict.set problem_data_1step "formal-checkbox" formality in
  let count_str := Py.str (Z.of_nat count) in
  let idx_str := Py.str idx in
  let problem_name_1step :=
    if test_mode then "test_" +:+ count_str +:+ "_1step"
    else if Py.truthy completed_sentence then completed_sentence
         else "problem_" +:+ idx_str +:+ "_1step" in
  let safe_filename_1step :=
    if test_mode then "test_" +:+ count_str +:+ "_1step"
    else "problem_" +:+ idx_str +:+ "_1step" in
  let problem_name_2step :=
    if test_mode then "test_" +:+ count_str +:+ "_2step"
    else if Py.truthy completed_sentence then completed_sentence
         else "problem_" +:+ idx_str +:+ "_2step" in
  let safe_filename_2step :=
    if test_mode then "test_" +:+ count_str +:+ "_2step"
    else "problem_" +:+ idx_str +:+ "_2step" in
  (* 1step BRD *)
  print ("Processing problem: " +:+ problem_name_1step);;
  print_list "  Fields: " (PyDict.keys problem_data_1step);;
  brd_xml_1step ← generate_brd uuid4 problem_data_1step problem_name_1step;
  let output_file_1step :=
    path_join out_dir_1step (safe_filename_1step +:+ ".brd") in
  write_file out_dir_1step (safe_filename_1step +:+ ".brd") XML_DECLARATION
    brd_xml_1step;;
  print ("  Generated: " +:+ output_file_1step);;
  (* 2step BRD *)
  print ("Processing problem: " +:+ problem_name_2step);;
  print_list "  Fields: " (PyDict.keys problem_data_2step);;
  brd_xml_2step ← generate_brd uuid4 problem_data_2step problem_name_2step;
  let output_file_2step :=
    path_join out_dir_2step (safe_filename_2step +:+ ".brd") in
  write_file out_dir_2step (safe_filename_2step +:+ ".brd") XML_DECLARATION
    brd_xml_2step;;
  print ("  Generated: " +:+ output_file_2step).

(** [write_brd_files], the function local to
    [process_csv_language_translation]. *)
Definition write_brd_files (sub_df : DataFrame)
    (out_dir_1step out_dir_2step : string) (test_mode : bool) : M unit :=
  for_each (Py.enumerate 1 (PD.iterrows sub_df))
           (λ it _, write_brd_file out_dir_1step out_dir_2step test_mode it)
           tt.

(** The split of [process_csv_language_translation]: the shuffled table,
    then [(train_df, test_df)]. *)
Definition train_test_split (df : DataFrame) : DataFrame * DataFrame :=
  (* Shuffle the dataframe before splitting *)
  let df := PD.reset_index (mkDataFrame (columns df) (df_sample (rows df))) in
  (* Split into train and test (last 20% for test) *)
  let n_rows := PD.len df in
  let n_test := n_test_of n_rows in
  let test_df := PD.tail n_test df in
  let train_df :=
    if (n_test <? n_rows)%nat then PD.head (n_rows - n_test)%nat df
    else PD.head 0 df in
  (train_df, test_df).

(** [process_csv_language_translation]; [df] is what
    [pd.read_csv(csv_path, dtype=str)] returns and [parent_dir] is
    [Path(csv_path).parent].  The method never reads its [output_dir]
    argument, which is left out. *)
Definition process_csv_language_translation (df : DataFrame)
    (parent_dir : string) : M unit :=
  print ("Loaded CSV file with " +:+ Py.str (Z.of_nat (PD.len df))
         +:+ " rows and " +:+ Py.str (Z.of_nat (length (columns df)))
         +:+ " columns");;
  print_list "Column names: " (columns df);;
  let '(train_df, test_df) := train_test_split df in
  (* Output folders *)
  let gen_1step := path_join parent_dir "brd_generated_1step" in
  let gen_2step := path_join parent_dir "brd_generated_2step" in
  let test_1step := path_join parent_dir "brd_test_1step" in
  let test_2step := path_join parent_dir "brd_test_2step" in
  (* Write train and test BRDs *)
  write_brd_files train_df gen_1step gen_2step false;;
  write_brd_files test_df test_1step test_2step true;;
  print ("All files generated in: " +:+ gen_1step +:+ " (train 1step), "
         +:+ gen_2step +:+ " (train 2step), " +:+ test_1step
         +:+ " (test 1step), and " +:+ test_2step +:+ " (test 2step)").

(** The [try] block of [process_excel_file] once the table is loaded
    and found not to be a translation table: [df] is the table read from
    [excel_path]. *)
Definition process_table (df : DataFrame) (parent_dir : string)
    (output_dir : option string) : M unit :=
  print_list "Column names: " (columns df);;
  (* Drop rows where the first cell is empty or NaN *)
  first_col ← index (columns df) 0;
  kept ← lift (mapM (M := result)
                 (λ '(idx, cells),
                    c ← PD.getitem (zip (columns df) cells) first_col;
                    Ok (PD.notna c
                        && negb (String.eqb (Py.strip (PD.str c)) ""),
                        (idx, cells)))
                 (rows df));
  let df := mkDataFrame (columns df) ((List.filter fst kept).*2) in
  (* Drop columns where the first cell (row 0) is empty or NaN *)
  cols_to_keep ←
    for_each (drop 1 (columns df))
      (λ col cols_to_keep,
         first_cell ←
           match PD.iterrows df with
           | (_, row) :: _ => lift (PD.getitem row col)
           | [] => mret None
           end;
         if PD.notna first_cell
            && negb (String.eqb (Py.strip (PD.str first_cell)) "")
         then mret (cols_to_keep ++ [col])
         else mret cols_to_keep)
      [first_col];
  df ← lift (PD.select df cols_to_keep);
  let output_dir :=
    match output_dir with
    | None => path_join parent_dir "brd_generated"
    | Some d => d
    end in
  (* Process each column (except the first which contains field names) *)
  process_columns df output_dir (seq 1 (length (columns df) - 1));;
  print ("All files generated in: " +:+ output_dir).

(** The [try] block of [process_excel_file]. *)
Definition process_excel_file_try (excel_path : string) (df : DataFrame)
    (parent_dir : string) (output_dir : option string) : M unit :=
  let ext := Py.lower excel_path in
  let rows_and_columns :=
    " file with " +:+ Py.str (Z.of_nat (PD.len df)) +:+ " rows and "
    +:+ Py.str (Z.of_nat (length (columns df))) +:+ " columns" in
  if Py.endswith ".csv" ext then
    (* Use the new CSV format handler if columns match *)
    if forallb (λ c, existsb (String.eqb c) (columns df)) expected_cols
    then process_csv_language_translation df parent_dir
    else
      print ("Loaded CSV" +:+ rows_and_columns);;
      process_table df parent_dir output_dir
  else if Py.endswith ".tsv" ext || Py.endswith ".txt" ext then
    print ("Loaded TSV" +:+ rows_and_columns);;
    process_table df parent_dir output_dir
  else if Py.endswith ".xlsx" ext || Py.endswith ".xls" ext then
    print ("Loaded Excel" +:+ rows_and_columns);;
    process_table df parent_dir output_dir
  else raise ValueError.

(** [process_excel_file]: any exception is reported and ends the run
    with [sys.exit(1)]. *)
Definition process_excel_file (excel_path : string) (df : DataFrame)
    (parent_dir : string) (output_dir : option string)
    : World → Exit * World :=
  λ w, match process_excel_file_try excel_path df parent_dir output_dir w with
       | (Ok _, w') => (Returned, w')
       | (Raise e, w') =>
           (SysExit 1, (print_exception "Error processing file: " e w').2)
       end.

End Run.

(** ** Reading a document back

    What a reader of the emitted XML sees: the [node] and [edge] children
    of the root, and the fields of each. *)

Module Doc.

Definition nodes (root : Element) : list Element := ET.findall "node" root.
Definition edges (root : Element) : list Element := ET.findall "edge" root.

Definition node_id : Element → option string := ET.findtext ["uniqueID"].
Definition node_label : Element → option string := ET.findtext ["text"].
Definition node_x : Element → option string := ET.findtext ["dimension"; "x"].
Definition node_y : Element → option string := ET.findtext ["dimension"; "y"].

Definition source_id : Element → option string := ET.findtext ["sourceID"].
Definition dest_id : Element → option string := ET.findtext ["destID"].
Definition action_label : Element → option Element := ET.find "actionLabel".

(** The fields of an [actionLabel] element. *)
Definition unique_id : Element → option string := ET.findtext ["uniqueID"].
Definition transaction_id : Element → option string :=
  ET.findtext ["message"; "properties"; "transaction_id"].
Definition selection : Element → option string :=
  ET.findtext ["message"; "properties"; "Selection"; "value"].
Definition action : Element → option string :=
  ET.findtext ["message"; "properties"; "Action"; "value"].
Definition input_value : Element → option string :=
  ET.findtext ["message"; "properties"; "Input"; "value"].
Definition hint_message : Element → option string :=
  ET.findtext ["hintMessage"].
Definition actor : Element → option string :=
  ET.findtext ["matchers"; "Actor"].
(** The matcher under [matchers/<part>], as [(matcherType, parameter)]. *)
Definition matcher (part : string) (al : Element)
    : option (string * string) :=
  m ← ET.findpath ["matchers"; part; "matcher"] al;
  ty ← ET.findtext ["matcherType"] m;
  par ← ET.findtext ["matcherParameter"] m;
  Some (ty, par).

(** The [uniqueID] texts of the nodes, and of the action labels of the
    edges, in document order. *)
Definition node_ids (root : Element) : list (option string) :=
  node_id <$> nodes root.
Definition edge_ids (root : Element) : list (option string) :=
  (λ e, action_label e ≫= unique_id) <$> edges root.
Definition transaction_ids (root : Element) : list (option string) :=
  (λ e, action_label e ≫= transaction_id) <$> edges root.

(** [ids a n] is what a document shows when its identifiers are the
    [n] consecutive integers from [a]. *)
Definition ids (a : Z) (n : nat) : list (option string) :=
  (λ k : nat, Some (Py.str (a + Z.of_nat k))) <$> seq 0 n.

End Doc.

(** ** The document of a step sequence, in closed form

    [graph uuid4 n0 e0 u0 steps] is the tree that [build_graph] returns
    when it starts with [node_counter = n0], [edge_counter = e0] and after
    [u0] calls of [uuid.uuid4]; [advance] is the state it leaves. *)

Definition x_of (i : nat) : Z := default 0 (x_positions !! (i mod 2)%nat).

Definition graph_node (n0 : Z) (i : nat) : Element :=
  node_element
    (match i with
     | O => "empty"
     | S _ => "state" +:+ Py.str (Z.of_nat i + 1)
     end)
    (Py.str (n0 + Z.of_nat i)) (Py.str (x_of i))
    (Py.str (25 + 160 * Z.of_nat i)).

Definition graph_label (uuid4 : nat → string) (e0 : Z) (u0 : nat)
    (it : nat * Step) : Element :=
  let '(i, (field, value, action, actor)) := it in
  action_label_element (Py.str (e0 + Z.of_nat i)) (uuid4 (u0 + i)%nat)
    field action value (hint_message_of field value) actor.

Definition graph_edge (uuid4 : nat → string) (n0 e0 : Z) (u0 : nat)
    (it : nat * Step) : Element :=
  edge_element (Py.str (n0 + Z.of_nat it.1)) (Py.str (n0 + Z.of_nat it.1 + 1))
    (graph_label uuid4 e0 u0 it).

Definition graph (uuid4 : nat → string) (n0 e0 : Z) (u0 : nat)
    (steps : list Step) : Element :=
  Elem "stateGraph" root_attrib None
    ((start_messages :: (graph_node n0 <$> seq 0 (S (length steps))))
     ++ (graph_edge uuid4 n0 e0 u0 <$> Py.enumerate 0 steps)
     ++ [edges_groups]).

Definition advance (n : nat) (w : World) : World :=
  {| node_counter := node_counter w + Z.of_nat (S n);
     edge_counter := edge_counter w + Z.of_nat n;
     uuid_calls := uuid_calls w + n;
     shuffle_calls := shuffle_calls w;
     stdout := stdout w; files := files w |}.

(** ** The step plan as the specification words it

    A table of the fields a record may contribute, in plan order, each
    with the actor of its step; [done_step] ends every plan. *)

Definition step_table : list (string * string) :=
  [ ("situation-input", TUTOR);
    ("relationship-a-input", TUTOR);
    ("relationship-b-input", TUTOR);
    ("person-a-word-2", TUTOR); ("person-a-word-3", TUTOR);
    ("person-a-word-4", TUTOR); ("person-a-word-5", TUTOR);
    ("person-a-word-6", TUTOR); ("person-a-word-7", TUTOR);
    ("person-a-word-8", TUTOR); ("person-a-word-9", TUTOR);
    ("person-a-word-10", TUTOR); ("person-a-word-11", TUTOR);
    ("person-a-word-12", TUTOR); ("person-a-word-13", TUTOR);
    ("person-a-word-14", TUTOR); ("person-a-word-15", TUTOR);
    ("option-word-1", TUTOR); ("option-word-2", TUTOR);
    ("option-word-3", TUTOR); ("option-word-4", TUTOR);
    ("option-word-5", TUTOR);
    ("formal-checkbox", STUDENT);
    ("person-a-word-1", STUDENT) ].

(** The step of one table entry: present fields only. *)
Definition present (problem_data : dict) (entry : string * string)
    : list Step :=
  match PyDict.get problem_data entry.1 with
  | Some value => [(entry.1, value, "UpdateTextField", entry.2)]
  | None => []
  end.

Definition spec_steps (problem_data : dict) : list Step :=
  concat (present problem_data <$> step_table).

Definition done_step : Step := ("done", "-1", "ButtonPressed", STUDENT).

(** The table as the loops of [generate_brd] enumerate it. *)
Definition code_table : list (string * string) :=
  ((λ field, (field, TUTOR))
     <$> ["situation-input"; "relationship-a-input"; "relationship-b-input"])
  ++ ((λ i, ("person-a-word-" +:+ Py.str i, TUTOR)) <$> Py.range 2 16)
  ++ ((λ i, ("option-word-" +:+ Py.str i, TUTOR)) <$> Py.range 1 6)
  ++ [("formal-checkbox", STUDENT); ("person-a-word-1", STUDENT)].

(** ** The record extractor as the specification words it

    A row contributes an entry when its first cell is a name that is not
    blank after trimming and its cell in the target column is a value that
    is not blank after trimming; the entry maps the trimmed name, without
    its wrapper, to the trimmed value. *)

Definition row_entry (col_index : nat) (cells : list cell)
    : option (string * string) :=
  match cells !! 0%nat, cells !! col_index with
  | Some (Some name), Some (Some value) =>
      if Py.truthy (Py.strip name) && Py.truthy (Py.strip value)
      then Some (clean_field_name (Py.strip name), Py.strip value)
      else None
  | _, _ => None
  end.

Definition row_entries (df : DataFrame) (col_index : nat)
    : list (string * string) :=
  omap (row_entry col_index) (rows df).*2.

Definition insert_all (entries : list (string * string)) (d : dict) : dict :=
  foldl (λ d e, PyDict.set d e.1 e.2) d entries.

(** ** Worked inputs *)

(** A whole-table sheet: field names in the first column, one problem
    per further column.  Row 2 has a blank name, row 3 no name, row 5
    repeats the name of row 0. *)
Definition example_table : DataFrame :=
  mkDataFrame ["Problem Name"; "sq1"; "sq2"]
    [ (0, [Some "%(situation-input)%"; Some " At work "; Some "Home"]);
      (1, [Some "relationship-a-input"; Some "Boss"; None]);
      (2, [Some "  "; Some "ignored"; Some "x"]);
      (3, [None; Some "ignored"; None]);
      (4, [Some "option-word-1"; Some "Sir"; Some " "]);
      (5, [Some "%(situation-input)%"; Some "At the office"; None]) ].

(** The record of the specification's example. *)
Definition example_record : dict :=
  [ ("situation-input", "At work"); ("relationship-a-input", "Boss");
    ("relationship-b-input", "Employee"); ("option-word-1", "Sir");
    ("option-word-2", "Bro") ].

(** Stand-ins for the external collaborators, to run the model. *)
Definition example_uuid4 (k : nat) : string := "uuid-" +:+ pretty k.
Definition example_cut (s : string) : list string := [s].
Definition example_shuffle (k : nat) (l : list string) : list string := l.
Definition example_sample (r : list (Z * list cell)) : list (Z * list cell) :=
  reverse r.

(** ** Where the files of a run went *)

Definition file_loc (f : File) : string * string := (file_dir f, file_name f).

(** The files written since the run was in state [w0]. *)
Definition files_since (w0 w : World) : list File :=
  drop (length (files w0)) (files w).

(** The files of [fs] written to directory [dir]. *)
Definition files_in (dir : string) (fs : list File) : list File :=
  List.filter (λ f, String.eqb (file_dir f) dir) fs.

(** The two files of one translation row: their directories and names. *)
Definition row_locs (out_dir_1step out_dir_2step : string) (test_mode : bool)
    (it : nat * (Z * Series)) : list (string * string) :=
  let '(count, (idx, _)) := it in
  if test_mode
  then [ (out_dir_1step, "test_" +:+ Py.str (Z.of_nat count) +:+ "_1step.brd");
         (out_dir_2step, "test_" +:+ Py.str (Z.of_nat count) +:+ "_2step.brd") ]
  else [ (out_dir_1step, "problem_" +:+ Py.str idx +:+ "_1step.brd");
         (out_dir_2step, "problem_" +:+ Py.str idx +:+ "_2step.brd") ].


(** A translation table of [n] examples with the seven expected
    columns, and one whose cells are all blank. *)
Definition translation_table (n : nat) : DataFrame :=
  mkDataFrame expected_cols
    ((λ k : nat, (Z.of_nat k,
                  [ Some "At work"; Some "Boss"; Some "Employee";
                    Some "formal"; Some "Sir"; Some "Bro Pal";
                    Some "Good morning" ])) <$> seq 0 n).

Definition blank_translation_table : DataFrame :=
  mkDataFrame expected_cols
    [(0, [Some " "; Some " "; Some " "; Some " "; Some " "; Some " ";
          Some " "])].


(** The fields and values that the edges of a document expect, in
    order. *)
Definition doc_steps (root : Element) : list (option string * option string) :=
  (λ e, (Doc.action_label e ≫= Doc.selection,
         Doc.action_label e ≫= Doc.input_value)) <$> Doc.edges root.


(** A document whose nodes are numbered 1..N and whose action labels are
    numbered 1..M. *)
Definition numbered_from_one (root : Element) : Prop :=
  Doc.node_ids root = Doc.ids 1 (length (Doc.nodes root))
  ∧ Doc.edge_ids root = Doc.ids 1 (length (Doc.edges root)).

(** [scrub e] is [e] with the text of every [transaction_id] element
    removed. *)
Fixpoint scrub (e : Element) : Element :=
  let 'Elem tag attrib text children := e in
  Elem tag attrib
    (if String.eqb tag "transaction_id" then None else text)
    (scrub <$> children).


(** ** The plan of a translation example, in closed form

    The steps of an example with the given situation and relationships,
    the shuffled titles and the tokens of the sentence; [formality] is
    [None] for the 1step variant. *)
Definition translation_plan (situation rel_a rel_b : string)
    (formality : option string) (titles words : list string) : list Step :=
  [ ("situation-input", situation, "UpdateTextField", TUTOR);
    ("relationship-a-input", rel_a, "UpdateTextField", TUTOR);
    ("relationship-b-input", rel_b, "UpdateTextField", TUTOR) ]
  ++ ((λ '(i, w), ("person-a-word-" +:+ Py.str (Z.of_nat i + 1), w,
                   "UpdateTextField", TUTOR))
        <$> Py.enumerate 1 (take 14 (drop 1 words)))
  ++ ((λ '(i, w), ("option-word-" +:+ Py.str (Z.of_nat i + 1), w,
                   "UpdateTextField", TUTOR))
        <$> Py.enumerate 0 (take 5 titles))
  ++ match formality with
     | Some value => [("formal-checkbox", value, "UpdateTextField", STUDENT)]
     | None => []
     end
  ++ match words with
     | value :: _ => [("person-a-word-1", value, "UpdateTextField", STUDENT)]
     | [] => []
     end
  ++ [done_step].

(** ** The trimmed table and the column loop, in closed form *)

(** A cell that is neither NaN nor blank: the test that
    [process_excel_file] applies to the first cell of a row and to the
    first cell of a column. *)
Definition named (c : cell) : bool :=
  PD.notna c && negb (String.eqb (Py.strip (PD.str c)) "").

(** The cell of a row under a column label; NaN when the row has none. *)
Definition cell_at (cols : list string) (cells : list cell) (label : string)
    : cell :=
  default None (PD.get (zip cols cells) label).

(** The rows whose first cell is named. *)
Definition kept_rows (df : DataFrame) : list (Z * list cell) :=
  List.filter (λ r, named (default None (r.2 !! 0%nat))) (rows df).

(** The first column, then the columns whose cell in the first kept row
    is named. *)
Definition kept_columns (df : DataFrame) : list string :=
  match columns df with
  | [] => []
  | first_col :: others =>
      first_col
      :: List.filter
           (λ col, match kept_rows df with
                   | [] => false
                   | (_, cells) :: _ => named (cell_at (columns df) cells col)
                   end)
           others
  end.

Definition trimmed (df : DataFrame) : DataFrame :=
  mkDataFrame (kept_columns df)
    ((λ '(idx, cells), (idx, cell_at (columns df) cells <$> kept_columns df))
       <$> kept_rows df).

(** Whether the column loop writes a document for a column of that name
    whose extracted record is [problem_data]. *)
Definition column_written (problem_name : string) (problem_data : dict)
    : bool :=
  negb (Py.startswith "Unnamed:" problem_name)
  && Py.truthy (Py.strip problem_name)
  && (2 <=? PyDict.len (meaningful problem_data))%nat.

(** The document of such a column, written when [u0] identifiers have
    been drawn. *)
Definition column_file (uuid4 : nat → string) (output_dir : string)
    (problem_name : string) (problem_data : dict) (u0 : nat) : File :=
  mkFile output_dir (safe_filename_of problem_name +:+ ".brd") XML_DECLARATION
    (graph uuid4 1 1 u0 (plan_steps (meaningful problem_data))).

(** Whether [process_excel_file] reads a file of that name at all. *)
Definition supported (excel_path : string) : bool :=
  let ext := Py.lower excel_path in
  Py.endswith ".csv" ext || Py.endswith ".tsv" ext || Py.endswith ".txt" ext
  || Py.endswith ".xlsx" ext || Py.endswith ".xls" ext.

(** Whether a table is handled as a translation table. *)
Definition is_translation (excel_path : string) (df : DataFrame) : bool :=
  Py.endswith ".csv" (Py.lower excel_path)
  && forallb (λ c, existsb (String.eqb c) (columns df)) expected_cols.

(** A sheet in the whole-table format with a column to be dropped: its
    cell in the first named row is blank. *)
Definition sheet_with_gap : DataFrame :=
  mkDataFrame ["Problem Name"; "sq1"; "sq2"; "sq3"]
    [ (0, [None; Some "x"; Some "y"; Some "z"]);
      (1, [Some "situation-input"; Some "At work"; None; Some "Home"]);
      (2, [Some "relationship-a-input"; Some "Boss"; Some "Friend";
           Some "Sister"]);
      (3, [Some "option-word-1"; Some "Sir"; Some "Bro"; None]) ].


(** The record of a column; empty when the extraction raises. *)
Definition record_of (df : DataFrame) (label : string) : dict :=
  match extract_problem_data df label with
  | Ok d => d
  | Raise _ => PyDict.empty
  end.

(** Whether the cell of a column in the first kept row is named. *)
Definition first_cell_named (df : DataFrame) (label : string) : bool :=
  match kept_rows df with
  | [] => false
  | (_, cells) :: _ => named (cell_at (columns df) cells label)
  end.

(** The problem columns that end up with a document, in table order. *)
Definition documented_columns (df : DataFrame) : list string :=
  List.filter
    (λ label, first_cell_named df label
              && column_written label (record_of df label))
    (drop 1 (columns df)).

(** [output_dir], or its default beside the input file. *)
Definition output_dir_of (parent_dir : string) (output_dir : option string)
    : string :=
  match output_dir with
  | None => path_join parent_dir "brd_generated"
  | Some d => d
  end.


(** * Properties *)

(** ** Dictionaries *)

Lemma dict_get_set (d : dict) (k k' v : string) :
  PyDict.get (PyDict.set d k v) k'
  = if String.eqb k k' then Some v else PyDict.get d k'.
Proof.
  induction d as [|[k0 v0] d IH]; simpl.
  - reflexivity.
  - destruct (String.eqb k0 k) eqn:E0; simpl.
    + apply String.eqb_eq in E0 as ->. destruct (String.eqb k k'); reflexivity.
    + rewrite IH. destruct (String.eqb k0 k') eqn:E1; [|reflexivity].
      apply String.eqb_eq in E1 as ->. rewrite String.eqb_sym, E0. reflexivity.
Qed.

(** ** Running the generator *)

Lemma enumerate_cons {A} (i : nat) (a : A) (l : list A) :
  Py.enumerate i (a :: l) = (i, a) :: Py.enumerate (S i) l.
Proof. reflexivity. Qed.

Lemma enumerate_length {A} (i : nat) (l : list A) :
  length (Py.enumerate i l) = length l.
Proof.
  unfold Py.enumerate. rewrite length_zip_with, length_seq. lia.
Qed.

Lemma enumerate_lookup {A} (i0 i : nat) (l : list A) (a : A) :
  l !! i = Some a → Py.enumerate i0 l !! i = Some ((i0 + i)%nat, a).
Proof.
  revert i0 i. induction l as [|b l IH]; intros i0 [|i] H; try discriminate.
  - simpl in H. injection H as ->. rewrite enumerate_cons, Nat.add_0_r.
    reflexivity.
  - rewrite enumerate_cons. simpl. rewrite (IH (S i0) i H).
    do 2 f_equal. lia.
Qed.

Lemma x_positions_lookup (i : nat) :
  x_positions !! (i mod 2)%nat = Some (x_of i).
Proof.
  unfold x_of. pose proof (Nat.mod_upper_bound i 2 ltac:(lia)) as H.
  destruct (i mod 2)%nat as [|[|?]]; [reflexivity|reflexivity|lia].
Qed.

Lemma bind_run {A B} (m : M A) (f : A → M B) (w w' : World) (a : A) :
  m w = (Ok a, w') → (m ≫= f) w = f a w'.
Proof. intros H. unfold mbind, M_bind, bind. rewrite H. reflexivity. Qed.

Lemma bind_raise {A B} (m : M A) (f : A → M B) (w w' : World) (e : exn) :
  m w = (Raise e, w') → (m ≫= f) w = (Raise e, w').
Proof. intros H. unfold mbind, M_bind, bind. rewrite H. reflexivity. Qed.

Lemma create_node_run (text : string) (x_pos y_pos : Z) (w : World) :
  create_node text x_pos y_pos w
  = (Ok (node_element text (Py.str (node_counter w)) (Py.str x_pos)
           (Py.str y_pos), node_counter w),
     {| node_counter := node_counter w + 1; edge_counter := edge_counter w;
        uuid_calls := uuid_calls w; shuffle_calls := shuffle_calls w;
        stdout := stdout w; files := files w |}).
Proof. reflexivity. Qed.

Lemma node_step_run (i : nat) (s : Step) (nodes : list (Element * Z))
    (kids : list Element) (y_pos : Z) (w : World) :
  node_step (i, s) (nodes, kids, y_pos) w
  = (let node := node_element ("state" +:+ Py.str (Z.of_nat i + 2))
                   (Py.str (node_counter w)) (Py.str (x_of (S i)))
                   (Py.str y_pos) in
     Ok (nodes ++ [(node, node_counter w)], kids ++ [node],
         y_pos + y_increment),
     {| node_counter := node_counter w + 1; edge_counter := edge_counter w;
        uuid_calls := uuid_calls w; shuffle_calls := shuffle_calls w;
        stdout := stdout w; files := files w |}).
Proof.
  unfold node_step, index. rewrite Nat.add_1_r, x_positions_lookup.
  reflexivity.
Qed.

Lemma node_loop (steps : list Step) :
  ∀ (i0 : nat) (nodes : list (Element * Z)) (kids : list Element) (w : World)
    (b : Z),
    b = node_counter w - Z.of_nat (S i0) →
    for_each (Py.enumerate i0 steps) node_step
      (nodes, kids, 25 + 160 * Z.of_nat (S i0)) w
    = (Ok (nodes ++ ((λ i, (graph_node b i, b + Z.of_nat i))
                       <$> seq (S i0) (length steps)),
           kids ++ (graph_node b <$> seq (S i0) (length steps)),
           25 + 160 * Z.of_nat (S (i0 + length steps))),
       {| node_counter := node_counter w + Z.of_nat (length steps);
          edge_counter := edge_counter w; uuid_calls := uuid_calls w;
          shuffle_calls := shuffle_calls w; stdout := stdout w;
          files := files w |}).
Proof.
  induction steps as [|s steps IH]; intros i0 nodes kids w b Hb.
  - simpl. rewrite !app_nil_r, Nat.add_0_r, Z.add_0_r. destruct w; reflexivity.
  - assert (Hnc : node_counter w = b + Z.of_nat (S i0)) by lia.
    rewrite enumerate_cons. cbn [for_each].
    erewrite bind_run by apply node_step_run. cbv zeta.
    replace (node_element _ _ _ _) with (graph_node b (S i0)).
    2:{ unfold graph_node. rewrite Hnc.
        replace (Z.of_nat (S i0) + 1) with (Z.of_nat i0 + 2) by lia.
        reflexivity. }
    replace (25 + 160 * Z.of_nat (S i0) + y_increment)
      with (25 + 160 * Z.of_nat (S (S i0))) by (unfold y_increment; lia).
    rewrite (IH (S i0) _ _ _ b) by (simpl; lia).
    cbn [node_counter edge_counter uuid_calls shuffle_calls stdout files
         length seq fmap list_fmap].
    rewrite <- !app_assoc. cbn [app]. rewrite Hnc.
    replace (S (S i0 + length steps)) with (S (i0 + S (length steps))) by lia.
    replace (b + Z.of_nat (S i0) + 1 + Z.of_nat (length steps))
      with (b + Z.of_nat (S i0) + Z.of_nat (S (length steps))) by lia.
    reflexivity.
Qed.

Lemma edge_step_run (uuid4 : nat → string) (nodes : list (Element * Z))
    (i : nat) (s : Step) (kids : list Element) (w : World)
    (src dst : Element) (n0 e0 : Z) (u0 : nat) :
  nodes !! i = Some (src, n0 + Z.of_nat i) →
  nodes !! S i = Some (dst, n0 + Z.of_nat i + 1) →
  edge_counter w = e0 + Z.of_nat i →
  uuid_calls w = (u0 + i)%nat →
  edge_step uuid4 nodes (i, s) kids w
  = (Ok (kids ++ [graph_edge uuid4 n0 e0 u0 (i, s)]),
     {| node_counter := node_counter w; edge_counter := edge_counter w + 1;
        uuid_calls := S (uuid_calls w); shuffle_calls := shuffle_calls w;
        stdout := stdout w; files := files w |}).
Proof.
  intros Hsrc Hdst He Hu. destruct s as [[[field value] action] actor].
  unfold edge_step, index, graph_edge, graph_label.
  rewrite Nat.add_1_r, Hsrc, Hdst, <- He, <- Hu. reflexivity.
Qed.

Lemma edge_loop (uuid4 : nat → string) (nodes : list (Element * Z))
    (n0 e0 : Z) (u0 : nat) (steps : list Step) :
  ∀ (i0 : nat) (kids : list Element) (w : World),
    (∀ i, (i ≤ i0 + length steps)%nat →
          ∃ nd, nodes !! i = Some (nd, n0 + Z.of_nat i)) →
    edge_counter w = e0 + Z.of_nat i0 →
    uuid_calls w = (u0 + i0)%nat →
    for_each (Py.enumerate i0 steps) (edge_step uuid4 nodes) kids w
    = (Ok (kids ++ (graph_edge uuid4 n0 e0 u0 <$> Py.enumerate i0 steps)),
       {| node_counter := node_counter w;
          edge_counter := edge_counter w + Z.of_nat (length steps);
          uuid_calls := uuid_calls w + length steps;
          shuffle_calls := shuffle_calls w; stdout := stdout w;
          files := files w |}).
Proof.
  induction steps as [|s steps IH]; intros i0 kids w Hnodes He Hu.
  - simpl. rewrite app_nil_r, Z.add_0_r, Nat.add_0_r. destruct w; reflexivity.
  - rewrite enumerate_cons. cbn [for_each].
    destruct (Hnodes i0) as [src Hsrc]; [lia|].
    destruct (Hnodes (S i0)) as [dst Hdst]; [simpl; lia|].
    replace (n0 + Z.of_nat (S i0)) with (n0 + Z.of_nat i0 + 1) in Hdst by lia.
    erewrite bind_run by (eapply edge_step_run; eassumption).
    rewrite IH.
    + cbn [node_counter edge_counter uuid_calls shuffle_calls stdout files
           length fmap list_fmap].
      rewrite <- app_assoc. cbn [app].
      replace (edge_counter w + 1 + Z.of_nat (length steps))
        with (edge_counter w + Z.of_nat (S (length steps))) by lia.
      replace (S (uuid_calls w) + length steps)%nat
        with (uuid_calls w + S (length steps))%nat by lia.
      reflexivity.
    + intros i Hi. apply Hnodes. simpl. lia.
    + simpl. lia.
    + simpl. lia.
Qed.

Lemma graph_node_0 (n0 : Z) :
  graph_node n0 0 = node_element "empty" (Py.str n0) (Py.str 217) (Py.str 25).
Proof. unfold graph_node. rewrite Z.add_0_r. reflexivity. Qed.

Lemma build_graph_run (uuid4 : nat → string) (steps : list Step) (w : World) :
  build_graph uuid4 steps w
  = (Ok (graph uuid4 (node_counter w) (edge_counter w) (uuid_calls w) steps),
     advance (length steps) w).
Proof.
  unfold build_graph, index. cbn [lookup list_lookup x_positions].
  erewrite bind_run by reflexivity.
  erewrite bind_run by apply create_node_run.
  cbn [app]. rewrite <- graph_node_0.
  erewrite bind_run.
  2:{ apply (node_loop steps 0 _ _ _ (node_counter w)). simpl. lia. }
  cbv beta iota zeta.
  erewrite bind_run.
  2:{ apply (edge_loop uuid4 _ (node_counter w) (edge_counter w)
               (uuid_calls w)).
      - intros i Hi. cbn [app]. destruct i as [|i].
        + eexists. cbn. f_equal. f_equal. lia.
        + exists (graph_node (node_counter w) (S i)).
          change ((?x :: ?l) !! S i) with (l !! i).
          rewrite list_lookup_fmap, lookup_seq_lt by (simpl in Hi; lia).
          reflexivity.
      - simpl. lia.
      - simpl. lia. }
  cbn [node_counter edge_counter uuid_calls shuffle_calls stdout files].
  unfold graph, advance. cbn [seq fmap list_fmap app mret M_ret ret].
  rewrite <- !app_assoc. cbn [app].
  replace (node_counter w + Z.of_nat (S (length steps)))
    with (node_counter w + 1 + Z.of_nat (length steps)) by lia.
  reflexivity.
Qed.

Lemma generate_brd_run (uuid4 : nat → string) (problem_data : dict)
    (problem_name : string) (w : World) :
  generate_brd uuid4 problem_data problem_name w
  = (Ok (graph uuid4 (node_counter w) (edge_counter w) (uuid_calls w)
           (plan_steps problem_data)),
     advance (length (plan_steps problem_data)) w).
Proof. apply build_graph_run. Qed.

(** ** Reading the closed form *)

Lemma filter_fmap_all {A} (f : Element → bool) (g : A → Element) (l : list A) :
  (∀ a, f (g a) = true) → List.filter f (g <$> l) = g <$> l.
Proof.
  intros H. induction l as [|a l IH]; [reflexivity|].
  rewrite fmap_cons. cbn [List.filter]. rewrite H, IH. reflexivity.
Qed.

Lemma filter_fmap_none {A} (f : Element → bool) (g : A → Element) (l : list A) :
  (∀ a, f (g a) = false) → List.filter f (g <$> l) = [].
Proof.
  intros H. induction l as [|a l IH]; [reflexivity|].
  rewrite fmap_cons. cbn [List.filter]. rewrite H, IH. reflexivity.
Qed.

Lemma graph_nodes (uuid4 : nat → string) (n0 e0 : Z) (u0 : nat)
    (steps : list Step) :
  Doc.nodes (graph uuid4 n0 e0 u0 steps)
  = graph_node n0 <$> seq 0 (S (length steps)).
Proof.
  unfold Doc.nodes, ET.findall, graph. cbn [ET.children].
  rewrite !List.filter_app.
  rewrite (filter_fmap_none _ (graph_edge uuid4 n0 e0 u0)) by reflexivity.
  change (start_messages :: ?l) with ([start_messages] ++ l).
  rewrite List.filter_app.
  rewrite (filter_fmap_all _ (graph_node n0)) by reflexivity.
  cbn. rewrite app_nil_r. reflexivity.
Qed.

Lemma graph_edges (uuid4 : nat → string) (n0 e0 : Z) (u0 : nat)
    (steps : list Step) :
  Doc.edges (graph uuid4 n0 e0 u0 steps)
  = graph_edge uuid4 n0 e0 u0 <$> Py.enumerate 0 steps.
Proof.
  unfold Doc.edges, ET.findall, graph. cbn [ET.children].
  rewrite !List.filter_app.
  rewrite (filter_fmap_all _ (graph_edge uuid4 n0 e0 u0)) by reflexivity.
  change (start_messages :: ?l) with ([start_messages] ++ l).
  rewrite List.filter_app.
  rewrite (filter_fmap_none _ (graph_node n0)) by reflexivity.
  cbn. rewrite app_nil_r. reflexivity.
Qed.


Lemma graph_nodes_at (n0 : Z) (m i : nat) :
  (i < m)%nat → (graph_node n0 <$> seq 0 m) !! i = Some (graph_node n0 i).
Proof.
  intros Hi. rewrite list_lookup_fmap, lookup_seq_lt by lia. reflexivity.
Qed.

Lemma graph_edges_at (uuid4 : nat → string) (n0 e0 : Z) (u0 : nat)
    (steps : list Step) (i : nat) (s : Step) :
  steps !! i = Some s →
  (graph_edge uuid4 n0 e0 u0 <$> Py.enumerate 0 steps) !! i
  = Some (graph_edge uuid4 n0 e0 u0 (i, s)).
Proof.
  intros Hs. rewrite list_lookup_fmap, (enumerate_lookup 0 i steps s Hs).
  reflexivity.
Qed.

(** ** The graph builder *)

(** C9.  For every step sequence, the graph builder returns a document
    with one node more than there are steps.  Node 0 is labelled "empty"
    and stands at x = 217, y = 25.  For every i from 1 to the number of
    steps, node i is labelled "state" followed by i+1, stands at
    y = 25 + i*160, and its x is the element at index i mod 2 of the pair
    [217, -83]: -83 for odd i (so for the first step node), 217 for even
    i. *)
Theorem C9_node_layout (uuid4 : nat → string) (steps : list Step) (w : World) :
  ∃ root w',
    build_graph uuid4 steps w = (Ok root, w')
    ∧ length (Doc.nodes root) = S (length steps)
    ∧ (∃ node, Doc.nodes root !! 0%nat = Some node
               ∧ Doc.node_label node = Some "empty"
               ∧ Doc.node_x node = Some (Py.str 217)
               ∧ Doc.node_y node = Some (Py.str 25))
    ∧ ∀ i : nat, (1 ≤ i ≤ length steps)%nat →
        ∃ node, Doc.nodes root !! i = Some node
                ∧ Doc.node_label node
                  = Some ("state" +:+ Py.str (Z.of_nat i + 1))
                ∧ Doc.node_y node = Some (Py.str (25 + Z.of_nat i * 160))
                ∧ Doc.node_x node = Py.str <$> [217; -83] !! (i mod 2)%nat
                ∧ ((i mod 2 = 1)%nat → Doc.node_x node = Some (Py.str (-83)))
                ∧ ((i mod 2 = 0)%nat → Doc.node_x node = Some (Py.str 217)).
Proof.
  eexists _, _. split; [apply build_graph_run|].
  rewrite graph_nodes. split; [|split].
  - rewrite length_fmap, length_seq. reflexivity.
  - exists (graph_node (node_counter w) 0). split; [reflexivity|].
    rewrite graph_node_0. repeat split.
  - intros i Hi. exists (graph_node (node_counter w) i).
    split; [apply graph_nodes_at; lia|].
    assert (Hx : Doc.node_x (graph_node (node_counter w) i)
                 = Py.str <$> [217; -83] !! (i mod 2)%nat).
    { change [217; -83] with x_positions. rewrite x_positions_lookup.
      reflexivity. }
    destruct i as [|i]; [lia|].
    split; [reflexivity|]. split.
    { unfold graph_node, Doc.node_y. cbn [ET.findtext].
      replace (25 + Z.of_nat (S i) * 160) with (25 + 160 * Z.of_nat (S i))
        by lia.
      reflexivity. }
    split; [exact Hx|]. rewrite Hx.
    split; intros ->; reflexivity.
Qed.

(** ** The step planner *)

Lemma code_table_eq : code_table = step_table.
Proof. vm_compute. reflexivity. Qed.

Lemma omap_present (problem_data : dict) (actor : string)
    (names : list string) :
  omap (λ field, value ← PyDict.get problem_data field;
                 Some (field, value, "UpdateTextField", actor)) names
  = concat (present problem_data <$> ((λ field, (field, actor)) <$> names)).
Proof.
  induction names as [|name names IH]; [reflexivity|].
  rewrite !fmap_cons, concat_cons, <- IH. unfold present. cbn.
  destruct (PyDict.get problem_data name); reflexivity.
Qed.

Lemma omap_present_numbered (problem_data : dict) (before actor : string)
    (l : list Z) :
  omap (λ i, let field_name := before +:+ Py.str i in
             value ← PyDict.get problem_data field_name;
             Some (field_name, value, "UpdateTextField", actor)) l
  = concat (present problem_data
              <$> ((λ i, (before +:+ Py.str i, actor)) <$> l)).
Proof.
  induction l as [|i l IH]; [reflexivity|].
  rewrite !fmap_cons, concat_cons, <- IH. unfold present. cbn.
  destruct (PyDict.get problem_data (before +:+ Py.str i)); reflexivity.
Qed.

Lemma omap_pointwise {A B} (f g : A → option B) (l : list A) :
  (∀ a, f a = g a) → omap f l = omap g l.
Proof.
  intros H. induction l as [|a l IH]; [reflexivity|].
  cbn. rewrite H, IH. reflexivity.
Qed.

Lemma plan_steps_table (problem_data : dict) :
  plan_steps problem_data
  = concat (present problem_data <$> code_table) ++ [done_step].
Proof.
  unfold plan_steps, code_table.
  rewrite list_fmap_omap.
  rewrite !fmap_app, !concat_app.
  rewrite <- omap_present, <- !omap_present_numbered.
  cbn [app].
  rewrite (omap_pointwise _
             (λ i, let field_name := "person-a-word-" +:+ Py.str i in
                   value ← PyDict.get problem_data field_name;
                   Some (field_name, value, "UpdateTextField", TUTOR))).
  2:{ intros i. cbn. destruct (PyDict.get problem_data _); reflexivity. }
  cbn [fmap list_fmap concat]. unfold present at 1 2. cbn [fst snd].
  rewrite app_nil_r, <- !app_assoc. reflexivity.
Qed.

Lemma plan_steps_spec (problem_data : dict) :
  plan_steps problem_data = spec_steps problem_data ++ [done_step].
Proof. rewrite plan_steps_table, code_table_eq. reflexivity. Qed.

Lemma elem_of_plan_steps (problem_data : dict) (s : Step) :
  s ∈ plan_steps problem_data →
  s = done_step
  ∨ ∃ entry value,
      entry ∈ code_table ∧ PyDict.get problem_data entry.1 = Some value
      ∧ s = (entry.1, value, "UpdateTextField", entry.2).
Proof.
  rewrite plan_steps_table. intros Hs.
  apply elem_of_app in Hs as [Hs|Hs].
  - right. apply list_elem_of_In, in_concat in Hs as (l & Hl & Hs).
    apply list_elem_of_In, list_elem_of_fmap in Hl as (entry & -> & Hentry).
    unfold present in Hs. destruct (PyDict.get problem_data entry.1) eqn:E.
    + destruct Hs as [<-|[]]. eauto.
    + destruct Hs.
  - left. apply list_elem_of_singleton in Hs. exact Hs.
Qed.

Lemma append_cons (c : ascii) (s t : string) :
  String c s +:+ t = String c (s +:+ t).
Proof. reflexivity. Qed.

Lemma append_inj (p a b : string) : p +:+ a = p +:+ b → a = b.
Proof.
  induction p as [|c p IH]; [trivial|].
  rewrite !append_cons. intros H. injection H as H. auto.
Qed.

Lemma range_elem (a b i : Z) : i ∈ Py.range a b → a ≤ i < b.
Proof.
  unfold Py.range. intros H.
  apply list_elem_of_fmap in H as (k & -> & Hk).
  apply elem_of_seq in Hk. lia.
Qed.

(** The fields of [code_table]: a basic field, a numbered
    [person-a-word] from 2 to 15, a numbered [option-word] from 1 to 5,
    [formal-checkbox] or [person-a-word-1]. *)
Lemma code_table_elem (entry : string * string) :
  entry ∈ code_table →
  (entry.2 = TUTOR
   ∧ (entry.1 ∈ ["situation-input"; "relationship-a-input";
                 "relationship-b-input"]
      ∨ (∃ i, 2 ≤ i < 16 ∧ entry.1 = "person-a-word-" +:+ Py.str i)
      ∨ (∃ i, 1 ≤ i < 6 ∧ entry.1 = "option-word-" +:+ Py.str i)))
  ∨ entry = ("formal-checkbox", STUDENT)
  ∨ entry = ("person-a-word-1", STUDENT).
Proof.
  unfold code_table. rewrite !elem_of_app, !list_elem_of_fmap.
  intros [(f & -> & Hf)|[(i & -> & Hi)|[(i & -> & Hi)|H]]].
  - left. split; [reflexivity|]. left. exact Hf.
  - left. split; [reflexivity|]. right. left. exists i.
    split; [apply range_elem, Hi|reflexivity].
  - left. split; [reflexivity|]. right. right. exists i.
    split; [apply range_elem, Hi|reflexivity].
  - right. apply elem_of_cons in H as [->|H]; [left; reflexivity|].
    apply list_elem_of_singleton in H as ->. right. reflexivity.
Qed.

(** C3.  For every field record the planned steps are, in this order:
    situation-input, relationship-a-input, relationship-b-input (Tutor);
    person-a-word-2 to person-a-word-15 ascending (Tutor); option-word-1 to
    option-word-5 ascending (Tutor); formal-checkbox (Student);
    person-a-word-1 (Student) -- every one only if the record has the
    field -- followed by the done step.  A person-a-word index of 16 or
    more and an option-word index of 6 or more contribute no step.  When
    person-a-word-1 is absent, no Student step named person-a-word-1
    appears. *)
Theorem C3_step_plan (problem_data : dict) :
  plan_steps problem_data = spec_steps problem_data ++ [done_step]
  ∧ (∀ i : Z, 16 ≤ i →
       "person-a-word-" +:+ Py.str i ∉ step_field <$> plan_steps problem_data)
  ∧ (∀ i : Z, 6 ≤ i →
       "option-word-" +:+ Py.str i ∉ step_field <$> plan_steps problem_data)
  ∧ (PyDict.get problem_data "person-a-word-1" = None →
     ∀ s, s ∈ plan_steps problem_data →
          ¬ (step_field s = "person-a-word-1" ∧ step_actor s = STUDENT)).
Proof.
  split; [apply plan_steps_spec|]. split; [|split].
  - intros i Hi Hin. apply list_elem_of_fmap in Hin as (s & Hf & Hs).
    apply elem_of_plan_steps in Hs as [->|(entry & value & He & _ & ->)];
      [discriminate Hf|].
    cbn in Hf.
    apply code_table_elem in He as [[_ [He|[(j & Hj & He)|(j & Hj & He)]]]|[->| ->]];
      rewrite ?He in Hf; try discriminate Hf.
    + repeat (apply elem_of_cons in He as [He|He];
              [rewrite He in Hf; discriminate Hf|]).
      inversion He.
    + apply append_inj, (inj Py.str) in Hf. lia.
    + change ("person-a-word-1", STUDENT).1
        with ("person-a-word-" +:+ Py.str 1) in Hf.
      apply append_inj, (inj Py.str) in Hf. lia.
  - intros i Hi Hin. apply list_elem_of_fmap in Hin as (s & Hf & Hs).
    apply elem_of_plan_steps in Hs as [->|(entry & value & He & _ & ->)];
      [discriminate Hf|].
    cbn in Hf.
    apply code_table_elem in He as [[_ [He|[(j & Hj & He)|(j & Hj & He)]]]|[->| ->]];
      rewrite ?He in Hf; try discriminate Hf.
    + repeat (apply elem_of_cons in He as [He|He];
              [rewrite He in Hf; discriminate Hf|]).
      inversion He.
    + apply append_inj, (inj Py.str) in Hf. lia.
  - intros Hnone s Hs [Hf Ha].
    apply elem_of_plan_steps in Hs as [->|(entry & value & He & Hget & ->)];
      [discriminate Hf|].
    cbn in Hf. rewrite Hf, Hnone in Hget. discriminate Hget.
Qed.

Lemma code_table_field_not_done (entry : string * string) :
  entry ∈ code_table → entry.1 ≠ "done".
Proof.
  rewrite code_table_eq. intros He Hd.
  assert (H : forallb (λ e, negb (String.eqb e.1 "done")) step_table = true)
    by reflexivity.
  rewrite forallb_forall in H. apply list_elem_of_In, H in He.
  rewrite Hd in He. discriminate He.
Qed.

Lemma code_table_actor (entry : string * string) :
  entry ∈ code_table → entry.2 = TUTOR ∨ entry.2 = STUDENT.
Proof.
  intros He. apply code_table_elem in He as [[-> _]|[->| ->]]; auto.
Qed.

(** C4.  For every field record the document has one node more than it
    has edges, one edge per planned step, and the plan ends with the step
    (done, -1, ButtonPressed, Student), which the last edge carries; the
    empty record gives this step alone. *)
Theorem C4_done_last (uuid4 : nat → string) (problem_data : dict)
    (problem_name : string) (w : World) :
  ∃ root w',
    generate_brd uuid4 problem_data problem_name w = (Ok root, w')
    ∧ length (Doc.nodes root) = (length (Doc.edges root) + 1)%nat
    ∧ length (Doc.edges root) = length (plan_steps problem_data)
    ∧ last (plan_steps problem_data)
      = Some ("done", "-1", "ButtonPressed", "Student")
    ∧ plan_steps PyDict.empty = [("done", "-1", "ButtonPressed", "Student")]
    ∧ ∃ edge al,
        last (Doc.edges root) = Some edge
        ∧ Doc.action_label edge = Some al
        ∧ Doc.selection al = Some "done"
        ∧ Doc.input_value al = Some "-1"
        ∧ Doc.action al = Some "ButtonPressed"
        ∧ Doc.actor al = Some "Student".
Proof.
  eexists _, _. split; [apply generate_brd_run|].
  rewrite graph_nodes, graph_edges.
  rewrite !length_fmap, length_seq, enumerate_length.
  split; [lia|]. split; [reflexivity|].
  split; [rewrite plan_steps_table; apply last_snoc|].
  split; [reflexivity|].
  set (steps := plan_steps problem_data).
  assert (Hlast : steps !! length (spec_steps problem_data) = Some done_step).
  { unfold steps. rewrite plan_steps_spec. apply list_lookup_middle.
    reflexivity. }
  eexists _, _. split.
  - rewrite last_lookup, length_fmap, enumerate_length.
    replace (Init.Nat.pred (length steps))
      with (length (spec_steps problem_data)).
    + apply graph_edges_at, Hlast.
    + unfold steps. rewrite plan_steps_spec, length_app. simpl. lia.
  - repeat split.
Qed.

(** C5.  For every step sequence the document has one edge per step, and
    the edge of step i (counted from 0 here, so edge i+1 of the claim)
    goes from node i to node i+1 and carries an action label whose
    selection is the step's field, whose action is the step's action
    kind, whose input is the step's value, whose hint is "Please click the
    highlighted button." when the field is done and 'Please enter
    "<value>" in the highlighted field.' otherwise, whose three matchers
    are ExactMatcher on the selection, the action and the input, and whose
    actor is the step's.  In a planned sequence the field is done exactly
    at the terminal step, and the actor is "Tutor (unevaluated)" or
    "Student"; an action label built without an actor gets
    "Tutor (unevaluated)". *)
Theorem C5_edges_carry_steps (uuid4 : nat → string) (steps : list Step)
    (w : World) :
  (∃ root w',
     build_graph uuid4 steps w = (Ok root, w')
     ∧ length (Doc.edges root) = length steps
     ∧ ∀ (i : nat) (field value action actor : string),
         steps !! i = Some (field, value, action, actor) →
         ∃ edge al src dst,
           Doc.edges root !! i = Some edge
           ∧ Doc.nodes root !! i = Some src
           ∧ Doc.nodes root !! S i = Some dst
           ∧ is_Some (Doc.node_id src) ∧ is_Some (Doc.node_id dst)
           ∧ Doc.source_id edge = Doc.node_id src
           ∧ Doc.dest_id edge = Doc.node_id dst
           ∧ Doc.action_label edge = Some al
           ∧ Doc.selection al = Some field
           ∧ Doc.action al = Some action
           ∧ Doc.input_value al = Some value
           ∧ Doc.hint_message al
             = Some (if String.eqb field "done"
                     then "Please click the highlighted button."
                     else "Please enter " +:+ Py.dquote +:+ value
                          +:+ Py.dquote +:+ " in the highlighted field.")
           ∧ Doc.matcher "Selection" al = Some ("ExactMatcher", field)
           ∧ Doc.matcher "Action" al = Some ("ExactMatcher", action)
           ∧ Doc.matcher "Input" al = Some ("ExactMatcher", value)
           ∧ Doc.actor al = Some actor)
  ∧ (∀ (problem_data : dict) (i : nat) (s : Step),
       plan_steps problem_data !! i = Some s →
       (step_field s = "done" ↔ S i = length (plan_steps problem_data))
       ∧ (step_actor s = "Tutor (unevaluated)" ∨ step_actor s = "Student"))
  ∧ (∀ (selection action input_value hint_message : string)
       (actor : option string) (w0 : World),
       ∃ al w', create_action_label uuid4 selection action input_value
                  hint_message actor w0 = (Ok al, w')
                ∧ Doc.actor al = Some (default "Tutor (unevaluated)" actor)).
Proof.
  split; [|split].
  - eexists _, _. split; [apply build_graph_run|].
    rewrite graph_nodes, graph_edges. split.
    { rewrite length_fmap, enumerate_length. reflexivity. }
    intros i field value action actor Hs.
    pose proof (lookup_lt_Some _ _ _ Hs) as Hi.
    exists (graph_edge uuid4 (node_counter w) (edge_counter w) (uuid_calls w)
              (i, (field, value, action, actor))).
    eexists _, (graph_node (node_counter w) i),
      (graph_node (node_counter w) (S i)).
    split; [apply graph_edges_at, Hs|].
    split; [apply graph_nodes_at, Nat.lt_lt_succ_r, Hi|].
    split; [apply graph_nodes_at, (proj1 (Nat.succ_lt_mono _ _)), Hi|].
    split; [eexists; reflexivity|]. split; [eexists; reflexivity|].
    split; [reflexivity|]. split.
    { unfold graph_edge, graph_node, Doc.dest_id, Doc.node_id.
      cbn [ET.findtext fst].
      replace (node_counter w + Z.of_nat (S i))
        with (node_counter w + Z.of_nat i + 1) by lia.
      reflexivity. }
    split; [reflexivity|]. repeat split.
  - intros problem_data i s Hs. rewrite plan_steps_table in *.
    rewrite length_app, Nat.add_1_r.
    apply lookup_snoc_Some in Hs as [[Hi Hs]|[Hi <-]].
    + apply list_elem_of_lookup_2, list_elem_of_In, in_concat in Hs
        as (l & Hl & Hs).
      apply list_elem_of_In, list_elem_of_fmap in Hl as (entry & -> & Hentry).
      unfold present in Hs. destruct (PyDict.get problem_data entry.1);
        [|destruct Hs].
      destruct Hs as [<-|[]]. split.
      * split; [|lia]. intros Hd.
        exfalso. exact (code_table_field_not_done entry Hentry Hd).
      * apply code_table_actor, Hentry.
    + split; [split; [congruence|reflexivity]|]. right. reflexivity.
  - intros. eexists _, _. split; [reflexivity|]. reflexivity.
Qed.

(** ** The record extractor *)

Lemma get_zip (cols : list string) :
  ∀ (cells : list cell) (j : nat) (label : string),
    NoDup cols → length cells = length cols → cols !! j = Some label →
    PD.get (zip cols cells) label = cells !! j.
Proof.
  induction cols as [|c cols IH]; intros cells j label Hnd Hlen Hj.
  - discriminate Hj.
  - destruct cells as [|x cells]; [discriminate Hlen|].
    apply NoDup_cons in Hnd as [Hc Hnd]. cbn [zip zip_with PD.get].
    destruct j as [|j].
    + injection Hj as ->. rewrite String.eqb_refl. reflexivity.
    + cbn in Hj. destruct (String.eqb c label) eqn:E.
      * apply String.eqb_eq in E as ->. exfalso. apply Hc.
        eapply list_elem_of_lookup_2, Hj.
      * cbn [lookup list_lookup]. apply IH; [exact Hnd| |exact Hj].
        simpl in Hlen. lia.
Qed.

Lemma extract_row_entry (cols : list string) (cells : list cell)
    (col_index : nat) (label : string) (d : dict) :
  NoDup cols → length cells = length cols → cols !! col_index = Some label →
  extract_row label (zip cols cells) d
  = Ok (match row_entry col_index cells with
        | Some e => PyDict.set d e.1 e.2
        | None => d
        end).
Proof.
  intros Hnd Hlen Hcol. unfold extract_row, row_entry, PD.iloc, PD.getitem.
  rewrite (get_zip cols cells col_index label Hnd Hlen Hcol).
  pose proof (lookup_lt_Some _ _ _ Hcol) as Hlt.
  destruct (lookup_lt_is_Some_2 cells col_index) as [y Hy]; [lia|].
  destruct cols as [|c cols]; [simpl in Hlt; lia|].
  destruct cells as [|x cells]; [discriminate Hlen|].
  change ((zip (c :: cols) (x :: cells)) !! 0%nat) with (Some (c, x)).
  change ((x :: cells) !! 0%nat) with (Some x).
  cbn [mbind result_bind]. unfold cell in *.
  destruct x as [name|]; [|reflexivity].
  rewrite !Hy.
  cbn [PD.notna PD.str default andb id].
  destruct (Py.truthy (Py.strip name)); [|destruct y; reflexivity].
  cbn [mbind result_bind andb].
  destruct y as [value|]; [|reflexivity].
  cbn [PD.notna PD.str default andb id].
  destruct (Py.truthy (Py.strip value)); reflexivity.
Qed.

Lemma extract_rows_entries (cols : list string) (col_index : nat)
    (label : string) (rs : list (Z * list cell)) :
  NoDup cols → cols !! col_index = Some label →
  Forall (λ r, length r.2 = length cols) rs →
  ∀ d, extract_rows label ((λ '(idx, cells), (idx, zip cols cells)) <$> rs) d
       = Ok (insert_all (omap (row_entry col_index) rs.*2) d).
Proof.
  intros Hnd Hcol Hrs. induction Hrs as [|[idx cells] rs Hlen _ IH]; intros d.
  - reflexivity.
  - rewrite !fmap_cons. cbn [extract_rows fst snd omap].
    rewrite (extract_row_entry cols cells col_index label d Hnd Hlen Hcol).
    cbn [mbind result_bind]. rewrite IH. cbn [omap list_omap].
    destruct (row_entry col_index cells); reflexivity.
Qed.

Lemma insert_all_get (entries : list (string * string)) (k : string) :
  ∀ d, PyDict.get (insert_all entries d) k
       = match last (List.filter (λ e, String.eqb e.1 k) entries) with
         | Some e => Some e.2
         | None => PyDict.get d k
         end.
Proof.
  induction entries as [|e entries IH]; intros d; [reflexivity|].
  change (insert_all (e :: entries) d)
    with (insert_all entries (PyDict.set d e.1 e.2)).
  cbn [List.filter]. rewrite IH, dict_get_set.
  destruct (String.eqb e.1 k); [|reflexivity].
  destruct (List.filter _ entries) as [|e' l] eqn:E; [reflexivity|].
  change (last (e :: e' :: l)) with (last (e' :: l)).
  destruct (last (e' :: l)) eqn:El; [reflexivity|].
  apply last_None in El. discriminate El.
Qed.

Lemma endswith_app (p s : string) : Py.endswith p (s +:+ p) = true.
Proof.
  induction s as [|c s IH].
  - change (EmptyString +:+ p) with p.
    destruct p; cbn [Py.endswith]; rewrite String.eqb_refl; reflexivity.
  - rewrite append_cons. cbn [Py.endswith]. rewrite IH. apply orb_true_r.
Qed.

Lemma substring_app (s t : string) :
  String.substring 0 (String.length s) (s +:+ t) = s.
Proof.
  induction s as [|c s IH]; [destruct t; reflexivity|].
  rewrite append_cons. cbn. rewrite IH. reflexivity.
Qed.

Lemma length_append (s t : string) :
  String.length (s +:+ t) = (String.length s + String.length t)%nat.
Proof.
  induction s as [|c s IH]; [reflexivity|].
  rewrite append_cons. cbn. rewrite IH. reflexivity.
Qed.

Lemma append_assoc (s t u : string) : (s +:+ t) +:+ u = s +:+ (t +:+ u).
Proof.
  induction s as [|c s IH]; [reflexivity|].
  rewrite !append_cons, IH. reflexivity.
Qed.

(** A wrapped name loses its wrapper, whatever is inside. *)
Lemma clean_field_name_wrapped (body : string) :
  clean_field_name ("%(" +:+ body +:+ ")%") = body.
Proof.
  unfold clean_field_name.
  replace (Py.startswith "%(" ("%(" +:+ body +:+ ")%")) with true
    by reflexivity.
  rewrite <- append_assoc, endswith_app, append_assoc.
  cbn [andb]. unfold Py.slice.
  rewrite !length_append. cbn [String.length].
  rewrite !append_cons. cbn [String.append String.substring Nat.add Nat.sub].
  change (EmptyString +:+ ?s) with s.
  replace (String.length body + 2 - 0 - 2)%nat
    with (String.length body) by lia.
  apply substring_app.
Qed.

Lemma truthy_nonempty (s : string) : Py.truthy s = true → s ≠ "".
Proof. destruct s; [discriminate|]. intros _ H. discriminate H. Qed.

Lemma row_entry_Some (col_index : nat) (cells : list cell)
    (e : string * string) :
  row_entry col_index cells = Some e →
  ∃ name value,
    cells !! 0%nat = Some (Some name) ∧ cells !! col_index = Some (Some value)
    ∧ Py.strip name ≠ "" ∧ Py.strip value ≠ ""
    ∧ e = (clean_field_name (Py.strip name), Py.strip value).
Proof.
  unfold row_entry. intros H.
  destruct (cells !! 0%nat) as [[name|]|]; try discriminate H.
  destruct (cells !! col_index) as [[value|]|]; try discriminate H.
  destruct (Py.truthy (Py.strip name)) eqn:En; [|discriminate H].
  destruct (Py.truthy (Py.strip value)) eqn:Ev; [|discriminate H].
  injection H as <-. exists name, value.
  repeat split; auto using truthy_nonempty.
Qed.



Example extract_example :
  extract_problem_data example_table "sq1"
  = Ok [ ("situation-input", "At the office");
         ("relationship-a-input", "Boss"); ("option-word-1", "Sir") ]
  ∧ extract_problem_data example_table "sq2"
    = Ok [("situation-input", "Home")].
Proof. split; reflexivity. Qed.

(** ** The train/test split *)

Lemma of_int_exact (n : Z) :
  0 ≤ n < 2 ^ 53 → Float64.of_int n = (n, 0).
Proof.
  intros Hn. unfold Float64.of_int, Float64.round. cbv zeta.
  assert (Hs : Z.log2 n + 1 - 53 ≤ 0).
  { destruct (Z.eq_dec n 0) as [->|Hn0]; [simpl; lia|].
    assert (Z.log2 n < 53) by (apply Z.log2_lt_pow2; lia). lia. }
  destruct (Z.leb_spec (Z.log2 n + 1 - 53) 0); [reflexivity|lia].
Qed.

(** Below 2^52 the double product [n * 0.2] truncates to [n // 5]. *)
Lemma int_mul_0_2 (n : Z) :
  0 ≤ n < 2 ^ 52 →
  Float64.to_int (Float64.mul (Float64.of_int n) Float64.c0_2) = n / 5.
Proof.
  intros Hn. rewrite of_int_exact.
  2:{ split; [lia|]. apply Z.lt_trans with (2 ^ 52); [lia|reflexivity]. }
  change (2 ^ 52) with 4503599627370496 in Hn.
  unfold Float64.mul, Float64.c0_2, Float64.round. cbn [fst snd].
  set (p := n * 7205759403792794). set (s := Z.log2 p + 1 - 53). cbv zeta.
  pose proof (Z.div_mod n 5 ltac:(lia)) as Hdm.
  pose proof (Z.mod_pos_bound n 5 ltac:(lia)) as Hr.
  set (k := n / 5) in *. set (r := n mod 5) in *.
  destruct (Z.leb_spec s 0) as [Hs|Hs].
  - unfold Float64.to_int. cbn [fst snd].
    change (0 <=? 0 + -55) with false. cbv iota.
    change (2 ^ (- (0 + -55))) with 36028797018963968.
    symmetry. apply Z.div_unique with (p - 36028797018963968 * k);
      unfold p; lia.
  - assert (Hp : 0 < p).
    { destruct (Z.eq_dec p 0) as [E|E]; [|unfold p in *; lia].
      unfold s in Hs. rewrite E in Hs. simpl in Hs. lia. }
    assert (Hs52 : s ≤ 52).
    { assert (Z.log2 p < 105); [|unfold s; lia].
      apply Z.log2_lt_pow2; [exact Hp|].
      change (2 ^ 105) with 40564819207303340847894502572032.
      unfold p. lia. }
    set (T := 2 ^ s). set (half := 2 ^ (s - 1)).
    set (U := 2 ^ (- (0 + -55 + s))).
    assert (HT : T = 2 * half).
    { unfold T, half. replace s with (Z.succ (s - 1)) at 1 by lia.
      apply Z.pow_succ_r. lia. }
    assert (Hhalf : 0 < half ≤ 2251799813685248).
    { unfold half. split; [apply Z.pow_pos_nonneg; lia|].
      change 2251799813685248 with (2 ^ 51).
      apply Z.pow_le_mono_r; lia. }
    assert (HU : 0 < U) by (apply Z.pow_pos_nonneg; lia).
    assert (HTU : U * T = 36028797018963968).
    { unfold U, T. rewrite <- Z.pow_add_r by lia.
      replace (- (0 + -55 + s) + s) with 55 by lia. reflexivity. }
    pose proof (Z.div_mod p T ltac:(lia)) as Hpdm.
    pose proof (Z.mod_pos_bound p T ltac:(lia)) as Hpr.
    set (q := p / T) in *. set (r' := p mod T) in *.
    set (q' := if (half <? r') || (r' =? half) && Z.odd q then q + 1 else q).
    assert (Hq' : q ≤ q' ∧ q' * T ≤ p + half).
    { unfold q'. destruct ((half <? r') || (r' =? half) && Z.odd q) eqn:E.
      - assert (half ≤ r').
        { apply orb_true_iff in E as [E|E]; [lia|].
          apply andb_true_iff in E as [E _]. lia. }
        split; [lia|]. nia.
      - split; [lia|]. nia. }
    unfold Float64.to_int. cbn [fst snd].
    destruct (Z.leb_spec 0 (0 + -55 + s)) as [Hbad|_]; [lia|].
    fold U.
    assert (Hlow : U * k < q + 1).
    { apply (Z.mul_lt_mono_pos_r T); [lia|].
      replace (U * k * T) with (k * 36028797018963968)
        by (rewrite <- HTU; ring).
      unfold p in *. nia. }
    assert (Hup : q' < U * (k + 1)).
    { apply (Z.mul_lt_mono_pos_r T); [lia|].
      replace (U * (k + 1) * T) with ((k + 1) * 36028797018963968)
        by (rewrite <- HTU; ring).
      unfold p in *. lia. }
    symmetry. apply Z.div_unique with (q' - U * k). lia. lia.
Qed.

Lemma n_test_of_spec (n : nat) :
  Z.of_nat n < 2 ^ 52 → n_test_of n = Z.to_nat (Z.max 1 (Z.of_nat n / 5)).
Proof.
  intros Hn. unfold n_test_of. rewrite int_mul_0_2 by lia. reflexivity.
Qed.

Lemma print_run (line : string) (w : World) :
  print line w
  = (Ok tt, {| node_counter := node_counter w; edge_counter := edge_counter w;
               uuid_calls := uuid_calls w; shuffle_calls := shuffle_calls w;
               stdout := stdout w ++ [Print line]; files := files w |}).
Proof. reflexivity. Qed.

Lemma print_list_run (before : string) (items : list string) (w : World) :
  print_list before items w
  = (Ok tt, {| node_counter := node_counter w; edge_counter := edge_counter w;
               uuid_calls := uuid_calls w; shuffle_calls := shuffle_calls w;
               stdout := stdout w ++ [PrintList before items];
               files := files w |}).
Proof. reflexivity. Qed.

Lemma write_file_run (dir name declaration : string) (root : Element)
    (w : World) :
  write_file dir name declaration root w
  = (Ok tt, {| node_counter := node_counter w; edge_counter := edge_counter w;
               uuid_calls := uuid_calls w; shuffle_calls := shuffle_calls w;
               stdout := stdout w;
               files := files w ++ [mkFile dir name declaration root] |}).
Proof. reflexivity. Qed.

Lemma shuffle_run (random_shuffle : nat → list string → list string)
    (l : list string) (w : World) :
  shuffle random_shuffle l w
  = (Ok (random_shuffle (shuffle_calls w) l),
     {| node_counter := node_counter w; edge_counter := edge_counter w;
        uuid_calls := uuid_calls w; shuffle_calls := S (shuffle_calls w);
        stdout := stdout w; files := files w |}).
Proof. reflexivity. Qed.

Lemma set_node_counter_run (n : Z) (w : World) :
  set_node_counter n w
  = (Ok tt, {| node_counter := n; edge_counter := edge_counter w;
               uuid_calls := uuid_calls w; shuffle_calls := shuffle_calls w;
               stdout := stdout w; files := files w |}).
Proof. reflexivity. Qed.

Lemma set_edge_counter_run (n : Z) (w : World) :
  set_edge_counter n w
  = (Ok tt, {| node_counter := node_counter w; edge_counter := n;
               uuid_calls := uuid_calls w; shuffle_calls := shuffle_calls w;
               stdout := stdout w; files := files w |}).
Proof. reflexivity. Qed.

Ltac run_step :=
  erewrite bind_run
    by first [ apply generate_brd_run | apply print_run | apply print_list_run
             | apply write_file_run | apply shuffle_run
             | apply set_node_counter_run | apply set_edge_counter_run ];
  cbn [node_counter edge_counter uuid_calls shuffle_calls stdout files].

Lemma eqb_append (p a b : string) :
  String.eqb (p +:+ a) (p +:+ b) = String.eqb a b.
Proof.
  induction p as [|c p IH]; [reflexivity|].
  rewrite !append_cons. cbn [String.eqb]. rewrite Ascii.eqb_refl. exact IH.
Qed.

Lemma files_in_locs (dir : string) (fs : list File) :
  length (files_in dir fs)
  = length (List.filter (λ l, String.eqb l.1 dir) (file_loc <$> fs)).
Proof.
  unfold files_in. induction fs as [|f fs IH]; [reflexivity|].
  rewrite fmap_cons. cbn [List.filter file_loc fst].
  destruct (String.eqb (file_dir f) dir); cbn [length]; rewrite IH;
    reflexivity.
Qed.

Lemma count_row_locs (dir out1 out2 : string) (test_mode : bool)
    (its : list (nat * (Z * Series))) :
  length (List.filter (λ l, String.eqb l.1 dir)
            (concat (row_locs out1 out2 test_mode <$> its)))
  = (((if String.eqb out1 dir then 1 else 0)
      + (if String.eqb out2 dir then 1 else 0)) * length its)%nat.
Proof.
  induction its as [|[count [idx row]] its IH]; [simpl; lia|].
  rewrite fmap_cons, concat_cons, List.filter_app, length_app, IH.
  unfold row_locs.
  destruct test_mode; cbn [List.filter fst];
    destruct (String.eqb out1 dir), (String.eqb out2 dir); cbn [length]; lia.
Qed.

Lemma length_row_locs (out1 out2 : string) (test_mode : bool)
    (its : list (nat * (Z * Series))) :
  length (concat (row_locs out1 out2 test_mode <$> its))
  = (2 * length its)%nat.
Proof.
  induction its as [|[count [idx row]] its IH]; [reflexivity|].
  rewrite fmap_cons, concat_cons, length_app, IH.
  unfold row_locs. destruct test_mode; simpl; lia.
Qed.

Lemma iterrows_length (df : DataFrame) :
  length (PD.iterrows df) = PD.len df.
Proof. unfold PD.iterrows, PD.len. apply length_fmap. Qed.

Section RunProperties.

Variable uuid4 : nat → string.
Variable jieba_cut : string → list string.
Variable random_shuffle : nat → list string → list string.
Variable df_sample : list (Z * list cell) → list (Z * list cell).

(** [sample(frac=1)] returns the rows of the table in some order. *)
Hypothesis df_sample_perm : ∀ r, df_sample r ≡ₚ r.

Lemma write_brd_file_run (out1 out2 : string) (test_mode : bool)
    (it : nat * (Z * Series)) (w : World) :
  ∃ (pd1 : dict) (n1 n2 : string) (out : list Output),
    let pd2 := PyDict.set pd1 "formal-checkbox" (row_field it.2.2 "Formality") in
    let len1 := length (plan_steps pd1) in
    let len2 := length (plan_steps pd2) in
    write_brd_file uuid4 jieba_cut random_shuffle out1 out2 test_mode it w
    = (Ok tt,
       {| node_counter := node_counter w + Z.of_nat (S len1) + Z.of_nat (S len2);
          edge_counter := edge_counter w + Z.of_nat len1 + Z.of_nat len2;
          uuid_calls := uuid_calls w + len1 + len2;
          shuffle_calls := S (shuffle_calls w);
          stdout := stdout w ++ out;
          files := files w ++
            [ mkFile out1 n1 XML_DECLARATION
                (graph uuid4 (node_counter w) (edge_counter w)
                   (uuid_calls w) (plan_steps pd1));
              mkFile out2 n2 XML_DECLARATION
                (graph uuid4 (node_counter w + Z.of_nat (S len1))
                   (edge_counter w + Z.of_nat len1)
                   (uuid_calls w + len1) (plan_steps pd2)) ] |})
    ∧ [(out1, n1); (out2, n2)] = row_locs out1 out2 test_mode it.
Proof.
  destruct it as [count [idx row]]. unfold write_brd_file.
  eexists _, _, _, _. cbv zeta. split.
  - run_step. run_step. run_step. unfold advance.
    cbn [node_counter edge_counter uuid_calls shuffle_calls stdout files].
    run_step. run_step. run_step. run_step. run_step. run_step. unfold advance.
    cbn [node_counter edge_counter uuid_calls shuffle_calls stdout files].
    run_step. rewrite print_run.
    cbn [node_counter edge_counter uuid_calls shuffle_calls stdout files].
    rewrite <- !app_assoc. cbn [app]. reflexivity.
  - unfold row_locs. destruct test_mode; rewrite !append_assoc; reflexivity.
Qed.

Lemma write_brd_files_loop (out1 out2 : string) (test_mode : bool)
    (its : list (nat * (Z * Series))) :
  ∀ w, ∃ w' new,
    for_each its
      (λ it _, write_brd_file uuid4 jieba_cut random_shuffle out1 out2
                 test_mode it) tt w
    = (Ok tt, w')
    ∧ files w' = files w ++ new
    ∧ file_loc <$> new = concat (row_locs out1 out2 test_mode <$> its).
Proof.
  induction its as [|it its IH]; intros w.
  - exists w, []. rewrite app_nil_r. repeat split.
  - destruct (write_brd_file_run out1 out2 test_mode it w)
      as (pd1 & n1 & n2 & out & Hrun & Hloc).
    cbv zeta in Hrun. cbn [for_each]. erewrite bind_run by exact Hrun.
    match goal with |- ∃ _ _, for_each _ _ _ ?w1 = _ ∧ _ =>
      destruct (IH w1) as (w' & new & Hloop & Hfiles & Hlocs) end.
    cbn [files] in Hfiles. rewrite <- app_assoc in Hfiles.
    eexists w', _. split; [exact Hloop|]. split; [exact Hfiles|].
    rewrite (fmap_cons _ it its), concat_cons, <- Hlocs, <- Hloc.
    reflexivity.
Qed.

Lemma write_brd_files_run (sub_df : DataFrame) (out1 out2 : string)
    (test_mode : bool) (w : World) :
  ∃ w' new,
    write_brd_files uuid4 jieba_cut random_shuffle sub_df out1 out2
      test_mode w = (Ok tt, w')
    ∧ files w' = files w ++ new
    ∧ file_loc <$> new
      = concat (row_locs out1 out2 test_mode
                  <$> Py.enumerate 1 (PD.iterrows sub_df)).
Proof. apply write_brd_files_loop. Qed.

Lemma translation_run (df : DataFrame) (parent_dir : string) (w : World) :
  ∃ w' new,
    process_csv_language_translation uuid4 jieba_cut random_shuffle
      df_sample df parent_dir w = (Ok tt, w')
    ∧ files w' = files w ++ new
    ∧ file_loc <$> new
      = concat (row_locs (path_join parent_dir "brd_generated_1step")
                  (path_join parent_dir "brd_generated_2step") false
                  <$> Py.enumerate 1
                        (PD.iterrows (train_test_split df_sample df).1))
        ++ concat (row_locs (path_join parent_dir "brd_test_1step")
                     (path_join parent_dir "brd_test_2step") true
                     <$> Py.enumerate 1
                           (PD.iterrows (train_test_split df_sample df).2)).
Proof.
  unfold process_csv_language_translation.
  run_step. run_step.
  destruct (train_test_split df_sample df) as [train_df test_df].
  cbn [fst snd].
  match goal with |- ∃ _ _, (_ ≫= _) ?w1 = _ ∧ _ =>
    destruct (write_brd_files_run train_df
                (path_join parent_dir "brd_generated_1step")
                (path_join parent_dir "brd_generated_2step") false w1)
      as (w2 & new1 & Hrun1 & Hfiles1 & Hlocs1) end.
  erewrite bind_run by exact Hrun1.
  destruct (write_brd_files_run test_df
              (path_join parent_dir "brd_test_1step")
              (path_join parent_dir "brd_test_2step") true w2)
    as (w3 & new2 & Hrun2 & Hfiles2 & Hlocs2).
  erewrite bind_run by exact Hrun2.
  rewrite print_run. eexists _, (new1 ++ new2). split; [reflexivity|].
  cbn [files] in *. split.
  - rewrite Hfiles2, Hfiles1, app_assoc. reflexivity.
  - rewrite fmap_app, Hlocs1, Hlocs2. reflexivity.
Qed.

(** The split is a cut of the shuffled, renumbered table. *)
Lemma train_test_split_rows (df : DataFrame) :
  let n := PD.len df in
  let t := n_test_of n in
  let rs := zip (Z.of_nat <$> seq 0 n) (df_sample (rows df)).*2 in
  rows (train_test_split df_sample df).1 = take (n - t) rs
  ∧ rows (train_test_split df_sample df).2 = drop (n - t) rs
  ∧ length rs = n.
Proof.
  pose proof (Permutation_length (df_sample_perm (rows df))) as Hlen.
  unfold train_test_split, PD.reset_index, PD.len, PD.tail, PD.head.
  cbn [rows columns fst snd].
  rewrite length_zip_with, !length_fmap, length_seq, Hlen, Nat.min_id.
  cbv zeta. split; [|split; [reflexivity|]].
  - destruct (Nat.ltb_spec (n_test_of (length (rows df)))
                (length (rows df))) as [H|H]; cbn [rows]; [reflexivity|].
    replace (length (rows df) - n_test_of (length (rows df)))%nat
      with 0%nat by lia.
    reflexivity.
  - rewrite length_zip_with, !length_fmap, length_seq, Hlen. lia.
Qed.

Lemma train_test_split_spec (df : DataFrame) :
  let n := PD.len df in
  let t := n_test_of n in
  let train := (train_test_split df_sample df).1 in
  let test := (train_test_split df_sample df).2 in
  PD.len train = (n - t)%nat
  ∧ PD.len test = (n - (n - t))%nat
  ∧ (rows train).*1 = Z.of_nat <$> seq 0 (n - t)
  ∧ (rows test).*1 = Z.of_nat <$> seq (n - t) (n - (n - t))
  ∧ (rows train).*2 ++ (rows test).*2 ≡ₚ (rows df).*2.
Proof.
  cbv zeta.
  destruct (train_test_split_rows df) as (Htrain & Htest & Hlen).
  cbv zeta in *. unfold PD.len in *. rewrite Htrain, Htest.
  set (n := length (rows df)) in *. set (t := n_test_of n) in *.
  pose proof (Permutation_length (df_sample_perm (rows df))) as Hs.
  assert (Hfst : (zip (Z.of_nat <$> seq 0 n) (df_sample (rows df)).*2).*1
                 = Z.of_nat <$> seq 0 n).
  { apply fst_zip. rewrite !length_fmap, length_seq, Hs. reflexivity. }
  assert (Hsnd : (zip (Z.of_nat <$> seq 0 n) (df_sample (rows df)).*2).*2
                 = (df_sample (rows df)).*2).
  { apply snd_zip. rewrite !length_fmap, length_seq, Hs. reflexivity. }
  split; [rewrite length_take; lia|].
  split; [rewrite length_drop; lia|].
  split; [|split].
  - rewrite fmap_take, Hfst, <- fmap_take, take_seq.
    replace ((n - t) `min` n)%nat with (n - t)%nat by lia. reflexivity.
  - rewrite fmap_drop, Hfst, <- fmap_drop, drop_seq.
    replace (0 + (n - t))%nat with (n - t)%nat by lia. reflexivity.
  - rewrite <- fmap_app, take_drop, Hsnd.
    apply fmap_Permutation, df_sample_perm.
Qed.

(** Every row of the train part leaves one file in each
    [brd_generated_*] directory, every row of the test part one file in
    each [brd_test_*] directory. *)
Lemma translation_counts (df : DataFrame) (parent_dir : string) (w : World) :
  ∃ w' new,
    process_csv_language_translation uuid4 jieba_cut random_shuffle
      df_sample df parent_dir w = (Ok tt, w')
    ∧ files w' = files w ++ new
    ∧ length (files_in (path_join parent_dir "brd_test_1step") new)
      = PD.len (train_test_split df_sample df).2
    ∧ length (files_in (path_join parent_dir "brd_test_2step") new)
      = PD.len (train_test_split df_sample df).2
    ∧ length (files_in (path_join parent_dir "brd_generated_1step") new)
      = PD.len (train_test_split df_sample df).1
    ∧ length (files_in (path_join parent_dir "brd_generated_2step") new)
      = PD.len (train_test_split df_sample df).1.
Proof.
  destruct (translation_run df parent_dir w)
    as (w' & new & Hrun & Hfiles & Hlocs).
  exists w', new. split; [exact Hrun|]. split; [exact Hfiles|].
  rewrite !files_in_locs, Hlocs, !List.filter_app, !length_app,
    !count_row_locs, !enumerate_length, !iterrows_length.
  unfold path_join. rewrite !eqb_append.
  cbn [String.eqb Ascii.eqb Bool.eqb andb]. repeat split; lia.
Qed.

End RunProperties.

Lemma example_sample_perm (r : list (Z * list cell)) : example_sample r ≡ₚ r.
Proof. apply reverse_Permutation. Qed.





(** ** Skipping a problem *)




(** ** Identifiers *)

Lemma graph_node_ids (uuid4 : nat → string) (n0 e0 : Z) (u0 : nat)
    (steps : list Step) :
  Doc.node_ids (graph uuid4 n0 e0 u0 steps) = Doc.ids n0 (S (length steps)).
Proof.
  unfold Doc.node_ids, Doc.ids. rewrite graph_nodes, <- list_fmap_compose.
  reflexivity.
Qed.

Lemma graph_edge_ids_from (uuid4 : nat → string) (n0 e0 : Z) (u0 : nat)
    (steps : list Step) :
  ∀ i0 : nat,
    (λ e, Doc.action_label e ≫= Doc.unique_id)
      <$> (graph_edge uuid4 n0 e0 u0 <$> Py.enumerate i0 steps)
    = (λ k : nat, Some (Py.str (e0 + Z.of_nat k))) <$> seq i0 (length steps).
Proof.
  induction steps as [|[[[field value] action] actor] steps IH]; intros i0;
    [reflexivity|].
  rewrite enumerate_cons, !fmap_cons, IH. reflexivity.
Qed.

Lemma graph_edge_ids (uuid4 : nat → string) (n0 e0 : Z) (u0 : nat)
    (steps : list Step) :
  Doc.edge_ids (graph uuid4 n0 e0 u0 steps) = Doc.ids e0 (length steps).
Proof.
  unfold Doc.edge_ids, Doc.ids. rewrite graph_edges. apply graph_edge_ids_from.
Qed.

(** A document generated when the counters stand at [n0] and [e0] numbers
    its nodes from [n0] and its action labels from [e0]. *)
Lemma generate_brd_ids (uuid4 : nat → string) (problem_data : dict)
    (problem_name : string) (w : World) :
  ∃ root w',
    generate_brd uuid4 problem_data problem_name w = (Ok root, w')
    ∧ Doc.node_ids root
      = Doc.ids (node_counter w) (length (Doc.nodes root))
    ∧ Doc.edge_ids root
      = Doc.ids (edge_counter w) (length (Doc.edges root))
    ∧ node_counter w' = node_counter w + Z.of_nat (length (Doc.nodes root))
    ∧ edge_counter w' = edge_counter w + Z.of_nat (length (Doc.edges root)).
Proof.
  eexists _, _. split; [apply generate_brd_run|].
  rewrite graph_node_ids, graph_edge_ids, graph_nodes, graph_edges.
  rewrite !length_fmap, length_seq, enumerate_length. repeat split.
Qed.

(** C1 at its failing input: a translation table of one example.  The run
    starts from a fresh generator and writes two documents.  The first
    numbers its 9 nodes 1..9 and its 8 action labels 1..8; the second
    numbers its 10 nodes 10..19 and its 9 action labels 9..17, instead of
    1..10 and 1..9. *)
Theorem C1_translation_ids_run_on :
  ∃ w',
    process_csv_language_translation example_uuid4 example_cut
      example_shuffle example_sample (translation_table 1) "out" init
    = (Ok tt, w')
    ∧ (λ f, (file_name f, Doc.node_ids (file_root f),
             Doc.edge_ids (file_root f))) <$> files w'
      = [ ("test_1_1step.brd", Doc.ids 1 9, Doc.ids 1 8);
          ("test_1_2step.brd", Doc.ids 10 10, Doc.ids 9 9) ].
Proof. eexists. split; vm_compute; reflexivity. Qed.

Lemma graph_numbered_from_one (uuid4 : nat → string) (u0 : nat)
    (steps : list Step) :
  numbered_from_one (graph uuid4 1 1 u0 steps).
Proof.
  unfold numbered_from_one.
  rewrite graph_node_ids, graph_edge_ids, graph_nodes, graph_edges.
  rewrite !length_fmap, length_seq, enumerate_length. split; reflexivity.
Qed.

(** In whole-table mode a column leaves at most one document, numbered
    from 1, whatever the state it starts in. *)
Lemma process_column_ids (uuid4 : nat → string) (df : DataFrame)
    (output_dir : string) (col_index : nat) (w : World) :
  ∃ r w' new,
    process_column uuid4 df output_dir col_index w = (r, w')
    ∧ files w' = files w ++ new
    ∧ Forall (λ f, numbered_from_one (file_root f)) new.
Proof.
  unfold process_column. run_step. run_step. unfold index.
  destruct (columns df !! col_index) as [label|].
  2:{ erewrite bind_raise by reflexivity.
      eexists _, _, []. rewrite app_nil_r. repeat split. constructor. }
  erewrite bind_run by reflexivity.
  destruct (Py.startswith "Unnamed:" label
            || negb (Py.truthy (Py.strip label))).
  { run_step. eexists _, _, []. rewrite app_nil_r. repeat split.
    constructor. }
  run_step. unfold lift.
  destruct (extract_problem_data df label) as [d|e].
  2:{ erewrite bind_raise by reflexivity.
      eexists _, _, []. rewrite app_nil_r. repeat split. constructor. }
  erewrite bind_run by reflexivity.
  destruct d as [|e d].
  { run_step. eexists _, _, []. rewrite app_nil_r. repeat split.
    constructor. }
  destruct (PyDict.len (meaningful (e :: d)) <? 2)%nat.
  { run_step. eexists _, _, []. rewrite app_nil_r. repeat split.
    constructor. }
  run_step. run_step. run_step. unfold advance.
  cbn [node_counter edge_counter uuid_calls shuffle_calls stdout files].
  run_step. rewrite print_run. eexists _, _, [_].
  split; [reflexivity|]. split; [reflexivity|].
  constructor; [|constructor]. apply graph_numbered_from_one.
Qed.

(** The positive half of C1: every document that the column loop of
    [process_excel_file] writes has its nodes numbered 1..N and its
    action labels 1..M, however many columns came before. *)
Theorem whole_table_ids (uuid4 : nat → string) (df : DataFrame)
    (output_dir : string) (col_indices : list nat) :
  ∀ w, ∃ r w' new,
    process_columns uuid4 df output_dir col_indices w = (r, w')
    ∧ files w' = files w ++ new
    ∧ Forall (λ f, numbered_from_one (file_root f)) new.
Proof.
  unfold process_columns.
  induction col_indices as [|i col_indices IH]; intros w.
  - exists (Ok tt), w, []. rewrite app_nil_r. repeat split. constructor.
  - cbn [for_each].
    destruct (process_column_ids uuid4 df output_dir i w)
      as ([[]|e] & w1 & new1 & Hrun & Hfiles & Hnew).
    + erewrite bind_run by exact Hrun.
      destruct (IH w1) as (r & w' & new & Hloop & Hfiles' & Hnew').
      exists r, w', (new1 ++ new). split; [exact Hloop|].
      split; [rewrite Hfiles', Hfiles, app_assoc; reflexivity|].
      apply Forall_app. split; assumption.
    + erewrite bind_raise by exact Hrun.
      exists (Raise e), w1, new1. repeat split; assumption.
Qed.


(** ** Transaction ids *)

Lemma graph_transaction_ids_from (uuid4 : nat → string) (n0 e0 : Z)
    (u0 : nat) (steps : list Step) :
  ∀ i0 : nat,
    (λ e, Doc.action_label e ≫= Doc.transaction_id)
      <$> (graph_edge uuid4 n0 e0 u0 <$> Py.enumerate i0 steps)
    = (λ k : nat, Some (uuid4 (u0 + k)%nat)) <$> seq i0 (length steps).
Proof.
  induction steps as [|[[[field value] action] actor] steps IH]; intros i0;
    [reflexivity|].
  rewrite enumerate_cons, !fmap_cons, IH. reflexivity.
Qed.

(** Every action label gets the result of a call of its own to
    [uuid.uuid4]: the labels of a document built after [u0] calls hold
    the results of calls [u0], [u0 + 1], ... in order. *)
Theorem transaction_ids_fresh (uuid4 : nat → string) (steps : list Step)
    (w : World) :
  ∃ root w',
    build_graph uuid4 steps w = (Ok root, w')
    ∧ Doc.transaction_ids root
      = (λ k : nat, Some (uuid4 (uuid_calls w + k)%nat))
          <$> seq 0 (length steps)
    ∧ uuid_calls w' = (uuid_calls w + length steps)%nat.
Proof.
  eexists _, _. split; [apply build_graph_run|]. split; [|reflexivity].
  unfold Doc.transaction_ids. rewrite graph_edges.
  apply graph_transaction_ids_from.
Qed.

Lemma scrub_graph_edges (uuid4 uuid4' : nat → string) (n0 e0 : Z)
    (u0 u0' : nat) (its : list (nat * Step)) :
  scrub <$> (graph_edge uuid4 n0 e0 u0 <$> its)
  = scrub <$> (graph_edge uuid4' n0 e0 u0' <$> its).
Proof.
  rewrite <- !list_fmap_compose. apply list_fmap_ext.
  intros _ [i [[[field value] action] actor]] _. reflexivity.
Qed.

(** Two runs of the graph builder on the same steps, from states with
    the same counters, under any two sources of unique identifiers,
    return documents that are equal once the transaction ids are
    removed. *)
Theorem build_graph_deterministic (uuid4 uuid4' : nat → string)
    (steps : list Step) (w1 w2 : World) :
  node_counter w1 = node_counter w2 →
  edge_counter w1 = edge_counter w2 →
  ∃ root1 root2 w1' w2',
    build_graph uuid4 steps w1 = (Ok root1, w1')
    ∧ build_graph uuid4' steps w2 = (Ok root2, w2')
    ∧ scrub root1 = scrub root2.
Proof.
  intros Hn He. eexists _, _, _, _.
  split; [apply build_graph_run|]. split; [apply build_graph_run|].
  rewrite Hn, He. unfold graph. cbn [scrub]. rewrite !fmap_app.
  rewrite (scrub_graph_edges uuid4 uuid4' _ _ (uuid_calls w1) (uuid_calls w2)).
  reflexivity.
Qed.

(** ** The examples of the specification *)

Example example_record_plan :
  step_field <$> plan_steps example_record
  = [ "situation-input"; "relationship-a-input"; "relationship-b-input";
      "option-word-1"; "option-word-2"; "done" ].
Proof. reflexivity. Qed.

Example example_record_graph :
  ∃ root w',
    generate_brd example_uuid4 example_record "sq1" init = (Ok root, w')
    ∧ length (Doc.nodes root) = 7%nat ∧ length (Doc.edges root) = 6%nat
    ∧ Doc.node_ids root = Doc.ids 1 7 ∧ Doc.edge_ids root = Doc.ids 1 6.
Proof.
  eexists _, _. split; [apply generate_brd_run|].
  rewrite graph_node_ids, graph_edge_ids, graph_nodes, graph_edges.
  rewrite !length_fmap, length_seq, enumerate_length. repeat split.
Qed.

Example translation_record_example :
  PyDict.keys
    (problem_data_1step_of "At work" "Boss" "Employee" ["Bro"; "Sir"; "Pal"]
       ["Good"; "morning"])
  = [ "situation-input"; "relationship-a-input"; "relationship-b-input";
      "option-word-1"; "option-word-2"; "option-word-3";
      "person-a-word-1"; "person-a-word-2" ].
Proof. reflexivity. Qed.

(** * Further properties of the code *)

(** ** The step plan: size, fields, and what it reads *)

Lemma present_fields_sublist (problem_data : dict)
    (table : list (string * string)) :
  step_field <$> concat (present problem_data <$> table)
  `sublist_of` table.*1.
Proof.
  induction table as [|entry table IH]; [constructor|].
  rewrite !fmap_cons, concat_cons, fmap_app. unfold present at 1.
  destruct (PyDict.get problem_data entry.1).
  - cbn. constructor. exact IH.
  - cbn. constructor. exact IH.
Qed.

Lemma length_present (problem_data : dict) (table : list (string * string)) :
  (length (concat (present problem_data <$> table)) ≤ length table)%nat.
Proof.
  induction table as [|entry table IH]; [reflexivity|].
  rewrite fmap_cons, concat_cons, length_app. unfold present at 1.
  destruct (PyDict.get problem_data entry.1); simpl; lia.
Qed.

(** Whatever the record holds, a document has between 1 and 25 edges and
    between 2 and 26 nodes: at most 24 fields are ever read, and the done
    step is always there. *)
Theorem document_size_bounds (uuid4 : nat → string) (problem_data : dict)
    (problem_name : string) (w : World) :
  (1 ≤ length (plan_steps problem_data) ≤ 25)%nat
  ∧ ∃ root w',
      generate_brd uuid4 problem_data problem_name w = (Ok root, w')
      ∧ (1 ≤ length (Doc.edges root) ≤ 25)%nat
      ∧ (2 ≤ length (Doc.nodes root) ≤ 26)%nat.
Proof.
  assert (H : (1 ≤ length (plan_steps problem_data) ≤ 25)%nat).
  { rewrite plan_steps_spec, length_app. unfold spec_steps.
    pose proof (length_present problem_data step_table) as Hle.
    change (length step_table) with 24%nat in Hle. cbn [length].
    unfold Step in *. lia. }
  split; [exact H|].
  eexists _, _. split; [apply generate_brd_run|].
  rewrite graph_nodes, graph_edges.
  rewrite !length_fmap, length_seq, enumerate_length.
  unfold Step in *. lia.
Qed.

(** No field gets two steps: the fields of the planned steps, and so the
    selections of a document's edges, are pairwise distinct. *)
Theorem plan_fields_distinct (problem_data : dict) :
  NoDup (step_field <$> plan_steps problem_data).
Proof.
  rewrite plan_steps_spec, fmap_app.
  apply (sublist_NoDup _ (step_table.*1 ++ ["done"])).
  - refine (bool_decide_unpack _ _). vm_compute. exact I.
  - apply sublist_app; [apply present_fields_sublist|reflexivity].
Qed.

(** The plan reads the record only at the 24 fields of the table: two
    records that agree there give the same steps, whatever else they
    hold. *)
Theorem plan_reads_table_fields_only (d1 d2 : dict) :
  (∀ entry, entry ∈ step_table →
            PyDict.get d1 entry.1 = PyDict.get d2 entry.1) →
  plan_steps d1 = plan_steps d2.
Proof.
  intros H. rewrite !plan_steps_spec. f_equal. unfold spec_steps. f_equal.
  apply list_fmap_ext. intros i entry Hi. unfold present.
  rewrite (H entry); [reflexivity|]. eapply list_elem_of_lookup_2, Hi.
Qed.

Lemma plan_reads_table_fields_only_witness :
  plan_steps (PyDict.set example_record "Problem Name" "sq1")
  = plan_steps example_record.
Proof.
  apply plan_reads_table_fields_only. intros entry He.
  rewrite dict_get_set.
  repeat (apply elem_of_cons in He as [->|He]; [reflexivity|]).
  inversion He.
Defined.

(** ** Numbering inside one document *)

Lemma ids_NoDup (a : Z) (n : nat) : NoDup (Doc.ids a n).
Proof.
  unfold Doc.ids. apply NoDup_fmap_2; [|apply NoDup_seq].
  intros j k H. injection H as H. apply (inj Py.str) in H. lia.
Qed.

(** From any state of the generator, the nodes of a document carry
    consecutive, pairwise distinct ids that start at the node counter,
    its action labels consecutive, pairwise distinct ids that start at
    the edge counter, and the counters end one past the last id used. *)
Theorem document_numbering (uuid4 : nat → string) (problem_data : dict)
    (problem_name : string) (w : World) :
  ∃ root w',
    generate_brd uuid4 problem_data problem_name w = (Ok root, w')
    ∧ Doc.node_ids root = Doc.ids (node_counter w) (length (Doc.nodes root))
    ∧ Doc.edge_ids root = Doc.ids (edge_counter w) (length (Doc.edges root))
    ∧ NoDup (Doc.node_ids root) ∧ NoDup (Doc.edge_ids root)
    ∧ node_counter w' = node_counter w + Z.of_nat (length (Doc.nodes root))
    ∧ edge_counter w' = edge_counter w + Z.of_nat (length (Doc.edges root)).
Proof.
  destruct (generate_brd_ids uuid4 problem_data problem_name w)
    as (root & w' & Hrun & Hn & He & Hnc & Hec).
  exists root, w'. rewrite Hn, He.
  repeat split; auto using ids_NoDup.
Qed.

Lemma build_graph_deterministic_witness :
  ∃ root1 root2 w1' w2',
    build_graph example_uuid4 (plan_steps example_record) init
    = (Ok root1, w1')
    ∧ build_graph (λ _, "") (plan_steps example_record) init
      = (Ok root2, w2')
    ∧ scrub root1 = scrub root2.
Proof.
  exact (build_graph_deterministic example_uuid4 (λ _, "")
           (plan_steps example_record) init init eq_refl eq_refl).
Defined.

(** ** The record and the plan of a translation example *)

Lemma str_key_eqb (before : string) (i j : Z) :
  String.eqb (before +:+ Py.str i) (before +:+ Py.str j) = bool_decide (i = j).
Proof.
  rewrite eqb_append. destruct (String.eqb_spec (Py.str i) (Py.str j)) as [E|E].
  - apply (inj Py.str) in E. rewrite bool_decide_eq_true_2; auto.
  - rewrite bool_decide_eq_false_2; [reflexivity|]. intros ->. auto.
Qed.

Lemma get_numbered_other (before : string) (l : list string) :
  ∀ (i0 : nat) (d : dict) (k : string),
    (∀ x, k ≠ before +:+ x) →
    PyDict.get
      (foldl (λ d '(i, w), PyDict.set d (before +:+ Py.str (Z.of_nat i + 1)) w)
         d (Py.enumerate i0 l)) k
    = PyDict.get d k.
Proof.
  induction l as [|w l IH]; intros i0 d k Hk; [reflexivity|].
  rewrite enumerate_cons. cbn [foldl]. rewrite IH by exact Hk.
  rewrite dict_get_set.
  destruct (String.eqb_spec (before +:+ Py.str (Z.of_nat i0 + 1)) k) as [E|E];
    [|reflexivity].
  exfalso. exact (Hk _ (eq_sym E)).
Qed.

Lemma get_numbered_own (before : string) (l : list string) :
  ∀ (i0 : nat) (d : dict) (j : Z),
    PyDict.get
      (foldl (λ d '(i, w), PyDict.set d (before +:+ Py.str (Z.of_nat i + 1)) w)
         d (Py.enumerate i0 l)) (before +:+ Py.str j)
    = match (if decide (Z.of_nat i0 < j)
             then l !! (Z.to_nat (j - 1) - i0)%nat else None) with
      | Some w => Some w
      | None => PyDict.get d (before +:+ Py.str j)
      end.
Proof.
  induction l as [|w l IH]; intros i0 d j.
  - cbn. destruct (decide _); reflexivity.
  - rewrite enumerate_cons. cbn [foldl]. rewrite IH, dict_get_set, str_key_eqb.
    destruct (decide (Z.of_nat (S i0) < j)) as [H1|H1].
    + rewrite decide_True by lia.
      replace (Z.to_nat (j - 1) - i0)%nat
        with (S (Z.to_nat (j - 1) - S i0)) by lia.
      cbn [lookup list_lookup].
      destruct (l !! _); [reflexivity|].
      rewrite bool_decide_eq_false_2 by lia. reflexivity.
    + destruct (decide (Z.of_nat i0 < j)) as [H2|H2].
      * replace (Z.to_nat (j - 1) - i0)%nat with 0%nat by lia.
        rewrite bool_decide_eq_true_2 by lia. reflexivity.
      * rewrite bool_decide_eq_false_2 by lia. reflexivity.
Qed.

Lemma concat_lookup_seq {A B} (l : list A) (f : nat → A → B) :
  ∀ (n a : nat),
    concat ((λ j, match l !! j with
                  | Some w => [f j w]
                  | None => []
                  end) <$> seq a n)
    = (λ '(i, w), f i w) <$> Py.enumerate a (take n (drop a l)).
Proof.
  induction n as [|n IH]; intros a; [reflexivity|].
  cbn [seq]. rewrite fmap_cons, concat_cons, IH.
  destruct (l !! a) as [w|] eqn:E.
  - rewrite (drop_S l w a E). cbn [take]. rewrite enumerate_cons.
    reflexivity.
  - apply lookup_ge_None in E.
    rewrite !drop_ge by lia. rewrite !take_nil. reflexivity.
Qed.

Section TranslationPlan.

Variables (pd : dict) (situation rel_a rel_b : string).
Variables (formality : option string) (titles words : list string).

Hypothesis get_situation : PyDict.get pd "situation-input" = Some situation.
Hypothesis get_rel_a : PyDict.get pd "relationship-a-input" = Some rel_a.
Hypothesis get_rel_b : PyDict.get pd "relationship-b-input" = Some rel_b.
Hypothesis get_formal : PyDict.get pd "formal-checkbox" = formality.
Hypothesis get_option : ∀ i : nat,
  PyDict.get pd ("option-word-" +:+ Py.str (Z.of_nat i + 1)) = titles !! i.
Hypothesis get_word : ∀ i : nat,
  PyDict.get pd ("person-a-word-" +:+ Py.str (Z.of_nat i + 1)) = words !! i.

Lemma plan_of_translation_record :
  plan_steps pd
  = translation_plan situation rel_a rel_b formality titles words.
Proof.
  rewrite plan_steps_table. unfold code_table, translation_plan.
  rewrite !fmap_app, !concat_app.
  change (Py.range 2 16) with ((λ j : nat, Z.of_nat j + 1) <$> seq 1 14).
  change (Py.range 1 6) with ((λ j : nat, Z.of_nat j + 1) <$> seq 0 5).
  rewrite <- !list_fmap_compose.
  assert (Hwords :
    concat (present pd ∘ (λ i : Z, ("person-a-word-" +:+ Py.str i, TUTOR))
            ∘ (λ j : nat, Z.of_nat j + 1) <$> seq 1 14)
    = (λ '(i, w), ("person-a-word-" +:+ Py.str (Z.of_nat i + 1), w,
                   "UpdateTextField", TUTOR))
        <$> Py.enumerate 1 (take 14 (drop 1 words))).
  { rewrite <- (concat_lookup_seq words
      (λ i w, ("person-a-word-" +:+ Py.str (Z.of_nat i + 1), w,
               "UpdateTextField", TUTOR))).
    f_equal. apply list_fmap_ext. intros _ j _. unfold present.
    cbn [compose fst snd]. rewrite get_word. reflexivity. }
  assert (Htitles :
    concat (present pd ∘ (λ i : Z, ("option-word-" +:+ Py.str i, TUTOR))
            ∘ (λ j : nat, Z.of_nat j + 1) <$> seq 0 5)
    = (λ '(i, w), ("option-word-" +:+ Py.str (Z.of_nat i + 1), w,
                   "UpdateTextField", TUTOR))
        <$> Py.enumerate 0 (take 5 titles)).
  { rewrite <- (drop_0 titles) at 1.
    rewrite <- (concat_lookup_seq titles
      (λ i w, ("option-word-" +:+ Py.str (Z.of_nat i + 1), w,
               "UpdateTextField", TUTOR))).
    f_equal. apply list_fmap_ext. intros _ j _. unfold present.
    cbn [compose fst snd]. rewrite get_option. reflexivity. }
  rewrite Hwords, Htitles. clear Hwords Htitles.
  cbn [fmap list_fmap concat]. unfold present. cbn [fst snd compose].
  rewrite get_situation, get_rel_a, get_rel_b, get_formal.
  change "person-a-word-1" with ("person-a-word-" +:+ Py.str (Z.of_nat 0 + 1))
    at 1.
  rewrite get_word.
  rewrite app_nil_r, <- !app_assoc. cbn [app].
  destruct formality, words; reflexivity.
Qed.

End TranslationPlan.

Lemma problem_data_lookup (situation rel_a rel_b : string)
    (titles words : list string) :
  let pd := problem_data_1step_of situation rel_a rel_b titles words in
  PyDict.get pd "situation-input" = Some situation
  ∧ PyDict.get pd "relationship-a-input" = Some rel_a
  ∧ PyDict.get pd "relationship-b-input" = Some rel_b
  ∧ PyDict.get pd "formal-checkbox" = None
  ∧ (∀ j : Z, PyDict.get pd ("option-word-" +:+ Py.str j)
              = if decide (0 < j) then titles !! Z.to_nat (j - 1) else None)
  ∧ (∀ j : Z, PyDict.get pd ("person-a-word-" +:+ Py.str j)
              = if decide (0 < j) then words !! Z.to_nat (j - 1) else None).
Proof.
  cbv zeta. unfold problem_data_1step_of.
  assert (Hbase : ∀ k,
    (∀ x, k ≠ "option-word-" +:+ x) → (∀ x, k ≠ "person-a-word-" +:+ x) →
    PyDict.get
      (foldl (λ d '(i, w),
                PyDict.set d ("person-a-word-" +:+ Py.str (Z.of_nat i + 1)) w)
         (foldl (λ d '(i, w),
                   PyDict.set d ("option-word-" +:+ Py.str (Z.of_nat i + 1)) w)
            (PyDict.set
               (PyDict.set
                  (PyDict.set PyDict.empty "situation-input" situation)
                  "relationship-a-input" rel_a)
               "relationship-b-input" rel_b)
            (Py.enumerate 0 titles))
         (Py.enumerate 0 words)) k
    = PyDict.get
        [ ("situation-input", situation); ("relationship-a-input", rel_a);
          ("relationship-b-input", rel_b) ] k).
  { intros k H1 H2. rewrite !get_numbered_other by assumption. reflexivity. }
  repeat split.
  - rewrite Hbase; [reflexivity| |]; intros x H; discriminate H.
  - rewrite Hbase; [reflexivity| |]; intros x H; discriminate H.
  - rewrite Hbase; [reflexivity| |]; intros x H; discriminate H.
  - rewrite Hbase; [reflexivity| |]; intros x H; discriminate H.
  - intros j. rewrite get_numbered_other by (intros x H; discriminate H).
    rewrite get_numbered_own. change (Z.of_nat 0) with 0.
    rewrite Nat.sub_0_r. destruct (decide (0 < j)); [|reflexivity].
    destruct (titles !! _); reflexivity.
  - intros j. rewrite get_numbered_own. change (Z.of_nat 0) with 0.
    rewrite Nat.sub_0_r.
    rewrite get_numbered_other by (intros x H; discriminate H).
    destruct (decide (0 < j)); [|reflexivity].
    destruct (words !! _); reflexivity.
Qed.

Lemma problem_data_plans (situation rel_a rel_b formality : string)
    (titles words : list string) :
  let pd := problem_data_1step_of situation rel_a rel_b titles words in
  plan_steps pd = translation_plan situation rel_a rel_b None titles words
  ∧ plan_steps (PyDict.set pd "formal-checkbox" formality)
    = translation_plan situation rel_a rel_b (Some formality) titles words.
Proof.
  cbv zeta.
  destruct (problem_data_lookup situation rel_a rel_b titles words)
    as (Hs & Ha & Hb & Hf & Ho & Hw).
  cbv zeta in *.
  assert (Hidx : ∀ i : nat, Z.to_nat (Z.of_nat i + 1 - 1) = i) by (intros; lia).
  split.
  - apply plan_of_translation_record; try assumption.
    + intros i. rewrite Ho, decide_True, Hidx by lia. reflexivity.
    + intros i. rewrite Hw, decide_True, Hidx by lia. reflexivity.
  - apply plan_of_translation_record; rewrite ?dict_get_set.
    + exact Hs.
    + exact Ha.
    + exact Hb.
    + reflexivity.
    + intros i. rewrite dict_get_set.
      change (String.eqb "formal-checkbox" _) with false.
      rewrite Ho, decide_True, Hidx by lia. reflexivity.
    + intros i. rewrite dict_get_set.
      change (String.eqb "formal-checkbox" _) with false.
      rewrite Hw, decide_True, Hidx by lia. reflexivity.
Qed.

(** ** Where a translation run writes *)

Lemma append_inj_r (s : string) : ∀ a b : string, a +:+ s = b +:+ s → a = b.
Proof.
  induction a as [|c a IH]; intros [|c' b] H.
  - reflexivity.
  - apply (f_equal String.length) in H.
    rewrite append_cons in H. cbn [String.length] in H.
    rewrite !length_append in H. cbn [String.length] in H. lia.
  - apply (f_equal String.length) in H.
    rewrite append_cons in H. cbn [String.length] in H.
    rewrite !length_append in H. cbn [String.length] in H. lia.
  - rewrite !append_cons in H. injection H as -> H. f_equal. auto.
Qed.

Lemma numbered_name_inj (before after : string) (i j : Z) :
  before +:+ Py.str i +:+ after = before +:+ Py.str j +:+ after → i = j.
Proof.
  intros H. apply append_inj, append_inj_r in H. exact (inj Py.str _ _ H).
Qed.

Lemma elem_of_row_locs (out1 out2 : string) (test_mode : bool)
    (its : list (nat * (Z * Series))) (l : string * string) :
  l ∈ concat (row_locs out1 out2 test_mode <$> its) →
  ∃ it, it ∈ its ∧ l ∈ row_locs out1 out2 test_mode it.
Proof.
  intros H. apply list_elem_of_In, in_concat in H as (ls & Hls & Hl).
  apply list_elem_of_In, list_elem_of_fmap in Hls as (it & -> & Hit).
  exists it. split; [exact Hit|]. apply list_elem_of_In, Hl.
Qed.

Lemma row_locs_dir (out1 out2 : string) (test_mode : bool)
    (it : nat * (Z * Series)) (l : string * string) :
  l ∈ row_locs out1 out2 test_mode it → l.1 = out1 ∨ l.1 = out2.
Proof.
  destruct it as [count [idx row]]. unfold row_locs.
  destruct test_mode; intros H;
    apply elem_of_cons in H as [->|H]; auto;
    apply list_elem_of_singleton in H as ->; auto.
Qed.

Lemma row_locs_NoDup (out1 out2 : string) (test_mode : bool)
    (its : list (nat * (Z * Series))) :
  out1 ≠ out2 →
  NoDup (if test_mode then Z.of_nat <$> its.*1 else its.*2.*1) →
  NoDup (concat (row_locs out1 out2 test_mode <$> its)).
Proof.
  intros Hout. induction its as [|[count [idx row]] its IH]; intros Hnd.
  - constructor.
  - rewrite fmap_cons, concat_cons. apply NoDup_app.
    assert (Hhd : if test_mode then Z.of_nat count ∉ Z.of_nat <$> its.*1
                  else idx ∉ its.*2.*1).
    { destruct test_mode; rewrite !fmap_cons in Hnd;
        apply NoDup_cons in Hnd as [H _]; exact H. }
    assert (Htl : NoDup (if test_mode then Z.of_nat <$> its.*1
                         else its.*2.*1)).
    { destruct test_mode; rewrite !fmap_cons in Hnd;
        apply NoDup_cons in Hnd as [_ H]; exact H. }
    split; [|split; [|exact (IH Htl)]].
    + unfold row_locs. destruct test_mode;
        (apply NoDup_cons; split; [|apply NoDup_singleton]);
        intros H; apply list_elem_of_singleton in H; injection H as H _;
        contradiction.
    + intros l Hl Hin.
      apply elem_of_row_locs in Hin as ([count' [idx' row']] & Hit & Hl').
      assert (Hsame : if test_mode then Z.of_nat count = Z.of_nat count'
                      else idx = idx').
      { unfold row_locs in Hl, Hl'. destruct test_mode;
          apply elem_of_cons in Hl as [->|Hl];
          try (apply list_elem_of_singleton in Hl as ->);
          apply elem_of_cons in Hl' as [Hl'|Hl'];
          try rewrite list_elem_of_singleton in Hl';
          pose proof (f_equal fst Hl') as Hd;
          pose proof (f_equal snd Hl') as Hn; cbn [fst snd] in Hd, Hn;
          try (exfalso; apply Hout; congruence);
          exact (numbered_name_inj _ _ _ _ Hn). }
      destruct test_mode.
      * apply Hhd. rewrite Hsame.
        apply list_elem_of_fmap. exists count'. split; [reflexivity|].
        apply list_elem_of_fmap. exists (count', (idx', row')). auto.
      * apply Hhd. rewrite Hsame.
        apply list_elem_of_fmap. exists (idx', row'). split; [reflexivity|].
        apply list_elem_of_fmap. exists (count', (idx', row')). auto.
Qed.

Lemma enumerate_fst {A} (i : nat) (l : list A) :
  (Py.enumerate i l).*1 = seq i (length l).
Proof.
  unfold Py.enumerate. apply fst_zip. rewrite length_seq. lia.
Qed.

Lemma enumerate_snd {A} (i : nat) (l : list A) : (Py.enumerate i l).*2 = l.
Proof.
  unfold Py.enumerate. apply snd_zip. rewrite length_seq. lia.
Qed.

Lemma iterrows_fst (df : DataFrame) : (PD.iterrows df).*1 = (rows df).*1.
Proof.
  unfold PD.iterrows. rewrite <- list_fmap_compose.
  apply list_fmap_ext. intros _ [idx cells] _. reflexivity.
Qed.

(** The row labels of the two parts are distinct, whatever the sampler
    returns: they come from [reset_index]. *)
Lemma train_test_split_labels
    (df_sample : list (Z * list cell) → list (Z * list cell))
    (df : DataFrame) :
  NoDup (rows (train_test_split df_sample df).1).*1
  ∧ NoDup (rows (train_test_split df_sample df).2).*1.
Proof.
  unfold train_test_split. cbv zeta.
  set (df' := PD.reset_index _).
  assert (Hnd : NoDup (rows df').*1).
  { unfold df', PD.reset_index. cbn [rows].
    rewrite fst_zip by (rewrite !length_fmap, length_seq; lia).
    apply NoDup_fmap; [apply Nat2Z.inj'|apply NoDup_seq]. }
  cbn [fst snd]. split.
  - destruct (_ <? _)%nat; unfold PD.head; cbn [rows];
      rewrite fmap_take; (eapply sublist_NoDup; [exact Hnd|apply sublist_take]).
  - unfold PD.tail. cbn [rows]. rewrite fmap_drop.
    eapply sublist_NoDup; [exact Hnd|apply sublist_drop].
Qed.


(** ** File names of whole-table documents *)

Lemma replace_length (c d : ascii) (s : string) :
  String.length (Py.replace c d s) = String.length s.
Proof. induction s as [|x s IH]; [reflexivity|]. cbn. rewrite IH. reflexivity. Qed.

Lemma safe_filename_of_cons (x : ascii) (s : string) :
  safe_filename_of (String x s)
  = String (if Ascii.eqb x " " || Ascii.eqb x "/"
               || Ascii.eqb x (ascii_of_nat 92)
            then "_"%char else x)
      (safe_filename_of s).
Proof.
  unfold safe_filename_of. cbn [Py.replace]. f_equal.
  destruct (Ascii.eqb_spec x " ") as [->|H1]; [reflexivity|].
  destruct (Ascii.eqb_spec x "/") as [->|H2]; [reflexivity|].
  cbn [orb]. destruct (Ascii.eqb x (ascii_of_nat 92)); reflexivity.
Qed.

(** The file name of a whole-table document has the length of the
    problem name and holds no space, slash or backslash: each of them has
    become an underscore and every other character is kept in place.
    Cleaning a clean name changes nothing, so a column named [a b] and a
    column named [a_b] are written to the same file. *)
Theorem safe_filename_of_safe (problem_name : string) :
  String.length (safe_filename_of problem_name) = String.length problem_name
  ∧ (∀ (i : nat) (c : ascii),
       String.get i (safe_filename_of problem_name) = Some c →
       c ≠ " "%char ∧ c ≠ "/"%char ∧ c ≠ ascii_of_nat 92
       ∧ ∃ x, String.get i problem_name = Some x
              ∧ (c = x ∨ c = "_"%char
                         ∧ (x = " "%char ∨ x = "/"%char
                            ∨ x = ascii_of_nat 92)))
  ∧ safe_filename_of (safe_filename_of problem_name)
    = safe_filename_of problem_name.
Proof.
  split; [|split].
  - unfold safe_filename_of. rewrite !replace_length. reflexivity.
  - induction problem_name as [|x s IH]; intros i c H; [discriminate H|].
    rewrite safe_filename_of_cons in H. destruct i as [|i].
    + cbn [String.get] in H. injection H as <-.
      destruct (Ascii.eqb_spec x " ") as [->|H1].
      { repeat split; try discriminate. eexists. split; [reflexivity|]. auto. }
      destruct (Ascii.eqb_spec x "/") as [->|H2].
      { repeat split; try discriminate. eexists. split; [reflexivity|]. auto. }
      destruct (Ascii.eqb_spec x (ascii_of_nat 92)) as [->|H3].
      { repeat split; try discriminate. eexists. split; [reflexivity|]. auto. }
      cbn [orb]. repeat split; try assumption.
      eexists. split; [reflexivity|]. auto.
    + cbn [String.get] in H |- *. exact (IH i c H).
  - induction problem_name as [|x s IH]; [reflexivity|].
    rewrite !safe_filename_of_cons, IH. f_equal.
    destruct (Ascii.eqb_spec x " ") as [->|H1]; [reflexivity|].
    destruct (Ascii.eqb_spec x "/") as [->|H2]; [reflexivity|].
    destruct (Ascii.eqb_spec x (ascii_of_nat 92)) as [->|H3]; [reflexivity|].
    cbn [orb].
    destruct (Ascii.eqb_spec x " "); [contradiction|].
    destruct (Ascii.eqb_spec x "/"); [contradiction|].
    destruct (Ascii.eqb_spec x (ascii_of_nat 92)); [contradiction|].
    reflexivity.
Qed.

(** ** Records and their meaningful part *)

Lemma rstrip_idemp (s : string) : Py.rstrip (Py.rstrip s) = Py.rstrip s.
Proof.
  induction s as [|c s IH]; [reflexivity|].
  cbn [Py.rstrip]. destruct (Py.rstrip s) as [|c' r] eqn:E.
  - destruct (Py.is_space c) eqn:Ec; [reflexivity|].
    cbn [Py.rstrip]. rewrite Ec. reflexivity.
  - cbn [Py.rstrip]. cbn [Py.rstrip] in IH.
    destruct (Py.rstrip r) as [|c'' r'] eqn:E'.
    + destruct (Py.is_space c') eqn:Ec'; [discriminate IH|].
      rewrite IH. reflexivity.
    + rewrite IH. reflexivity.
Qed.

Lemma rstrip_head (c : ascii) (s : string) :
  Py.is_space c = false → ∃ r, Py.rstrip (String c s) = String c r.
Proof.
  intros Hc. cbn [Py.rstrip]. destruct (Py.rstrip s); rewrite ?Hc; eauto.
Qed.

Lemma lstrip_cases (s : string) :
  Py.lstrip s = "" ∨ ∃ c t, Py.lstrip s = String c t ∧ Py.is_space c = false.
Proof.
  induction s as [|c s IH]; [left; reflexivity|].
  cbn [Py.lstrip]. destruct (Py.is_space c) eqn:Ec; [exact IH|].
  right. eauto.
Qed.

(** [s.strip().strip() == s.strip()] *)
Lemma strip_idemp (s : string) : Py.strip (Py.strip s) = Py.strip s.
Proof.
  unfold Py.strip. destruct (lstrip_cases s) as [->|(c & t & -> & Hc)].
  - reflexivity.
  - destruct (rstrip_head c t Hc) as [r Hr].
    assert (Hl : Py.lstrip (Py.rstrip (String c t)) = Py.rstrip (String c t)).
    { rewrite Hr. cbn [Py.lstrip]. rewrite Hc. reflexivity. }
    rewrite Hl. apply rstrip_idemp.
Qed.

Lemma set_keys (d : dict) (k v : string) :
  PyDict.keys (PyDict.set d k v)
  = if bool_decide (k ∈ PyDict.keys d) then PyDict.keys d
    else PyDict.keys d ++ [k].
Proof.
  unfold PyDict.keys. induction d as [|[k0 v0] d IH]; [reflexivity|].
  cbn [PyDict.set]. destruct (String.eqb_spec k0 k) as [->|Hne].
  - rewrite fmap_cons. cbn [fst].
    rewrite bool_decide_eq_true_2 by (rewrite fmap_cons; left).
    reflexivity.
  - rewrite !fmap_cons, IH. cbn [fst].
    destruct (decide (k ∈ d.*1)) as [Hin|Hin].
    + rewrite !bool_decide_eq_true_2; [reflexivity|right; exact Hin|exact Hin].
    + rewrite !bool_decide_eq_false_2; [reflexivity| |exact Hin].
      intros H. apply elem_of_cons in H as [H|H]; [congruence|contradiction].
Qed.

Lemma set_keys_NoDup (d : dict) (k v : string) :
  NoDup (PyDict.keys d) → NoDup (PyDict.keys (PyDict.set d k v)).
Proof.
  intros Hnd. rewrite set_keys. destruct (decide (k ∈ PyDict.keys d)).
  - rewrite bool_decide_eq_true_2 by assumption. exact Hnd.
  - rewrite bool_decide_eq_false_2 by assumption.
    apply NoDup_app. split; [exact Hnd|]. split; [|apply NoDup_singleton].
    intros x Hx Hx'. apply list_elem_of_singleton in Hx' as ->. contradiction.
Qed.

Lemma set_fresh (d : dict) (k v : string) :
  k ∉ PyDict.keys d → PyDict.set d k v = d ++ [(k, v)].
Proof.
  unfold PyDict.keys. induction d as [|[k0 v0] d IH]; intros Hk; [reflexivity|].
  rewrite fmap_cons in Hk. cbn [fst] in Hk. apply not_elem_of_cons in Hk as [H1 H2].
  cbn [PyDict.set]. destruct (String.eqb_spec k0 k) as [->|_]; [contradiction|].
  rewrite (IH H2). reflexivity.
Qed.

Lemma set_values (P : string → Prop) (d : dict) (k v : string) :
  P v → Forall (λ e, P e.2) d → Forall (λ e, P e.2) (PyDict.set d k v).
Proof.
  intros Hv. induction 1 as [|[k0 v0] d H0 Hd IH].
  - repeat constructor. exact Hv.
  - cbn [PyDict.set]. destruct (String.eqb k0 k); constructor; auto.
Qed.

(** On a dict, the comprehension that keeps the meaningful fields is a
    filter: same keys, same values, same order. *)
Lemma meaningful_filter (d : dict) :
  NoDup (PyDict.keys d) →
  meaningful d = List.filter (λ e, is_meaningful e.1 e.2) d.
Proof.
  unfold meaningful, PyDict.items, PyDict.empty.
  rewrite <- (app_nil_l (List.filter _ d)).
  assert (H : ∀ acc : dict,
    NoDup (PyDict.keys acc ++ PyDict.keys d) →
    foldl (λ d '(k, v), if is_meaningful k v then PyDict.set d k v else d)
      acc d
    = acc ++ List.filter (λ e, is_meaningful e.1 e.2) d).
  { induction d as [|[k v] d IH]; intros acc Hnd.
    - rewrite app_nil_r. reflexivity.
    - cbn [foldl List.filter fst snd].
      unfold PyDict.keys in Hnd. rewrite fmap_cons in Hnd. cbn [fst] in Hnd.
      destruct (is_meaningful k v).
      + rewrite IH.
        * rewrite set_fresh; [rewrite <- app_assoc; reflexivity|].
          apply NoDup_app in Hnd as (_ & Hdis & _). intros Hk.
          apply (Hdis k Hk). left.
        * rewrite set_keys, bool_decide_eq_false_2.
          { unfold PyDict.keys. rewrite <- app_assoc. exact Hnd. }
          apply NoDup_app in Hnd as (_ & Hdis & _). intros Hk.
          apply (Hdis k Hk). left.
      + apply IH. unfold PyDict.keys.
        apply NoDup_app in Hnd as (H1 & H2 & H3).
        apply NoDup_cons in H3 as [H3 H4].
        apply NoDup_app. split; [exact H1|]. split; [|exact H4].
        intros x Hx Hx'. apply (H2 x Hx). right. exact Hx'. }
  intros Hnd. apply H. exact Hnd.
Qed.

Lemma extract_rows_invariants (problem_column : string)
    (rows : list (Z * Series)) :
  ∀ d d' : dict,
    extract_rows problem_column rows d = Ok d' →
    NoDup (PyDict.keys d) →
    Forall (λ e, e.2 ≠ "" ∧ Py.strip e.2 = e.2) d →
    NoDup (PyDict.keys d')
    ∧ Forall (λ e, e.2 ≠ "" ∧ Py.strip e.2 = e.2) d'.
Proof.
  induction rows as [|[idx row] rows IH]; intros d d' Hrun Hnd Hval.
  - injection Hrun as <-. auto.
  - cbn [extract_rows] in Hrun.
    destruct (extract_row problem_column row d) as [d1|e] eqn:E;
      [|discriminate Hrun].
    cbn [mbind result_bind] in Hrun.
    assert (H1 : NoDup (PyDict.keys d1)
                 ∧ Forall (λ e, e.2 ≠ "" ∧ Py.strip e.2 = e.2) d1).
    { unfold extract_row in E.
      destruct (PD.iloc row 0) as [name|]; [|discriminate E].
      cbn [mbind result_bind] in E.
      destruct (PD.notna name && Py.truthy (Py.strip (PD.str name)));
        [|injection E as <-; auto].
      destruct (PD.getitem row problem_column) as [value|]; [|discriminate E].
      cbn [mbind result_bind] in E.
      destruct (PD.notna value) eqn:En; cbn [andb] in E;
        [|injection E as <-; auto].
      destruct (Py.truthy (Py.strip (PD.str value))) eqn:Et;
        injection E as <-; [|auto].
      split; [apply set_keys_NoDup, Hnd|].
      apply (set_values (λ v, v ≠ "" ∧ Py.strip v = v)); [|exact Hval].
      split; [apply truthy_nonempty, Et|apply strip_idemp]. }
    destruct H1 as [Hnd1 Hval1]. exact (IH d1 d' Hrun Hnd1 Hval1).
Qed.



(** ** One column of the whole-table loop *)

Lemma process_column_run (uuid4 : nat → string) (df : DataFrame)
    (output_dir : string) (col_index : nat) (label : string) (d : dict)
    (w : World) :
  columns df !! col_index = Some label →
  extract_problem_data df label = Ok d →
  ∃ w',
    process_column uuid4 df output_dir col_index w = (Ok tt, w')
    ∧ files w'
      = files w ++ (if column_written label d
                    then [column_file uuid4 output_dir label d (uuid_calls w)]
                    else []).
Proof.
  intros Hcol Hext. unfold process_column, column_written.
  run_step. run_step. unfold index. rewrite Hcol.
  erewrite bind_run by reflexivity.
  assert (Hname : negb (Py.startswith "Unnamed:" label)
                  && Py.truthy (Py.strip label)
                  = negb (Py.startswith "Unnamed:" label
                          || negb (Py.truthy (Py.strip label)))).
  { destruct (Py.startswith "Unnamed:" label), (Py.truthy (Py.strip label));
      reflexivity. }
  rewrite Hname.
  destruct (Py.startswith "Unnamed:" label
            || negb (Py.truthy (Py.strip label))).
  { run_step. eexists. split; [reflexivity|]. cbn [files negb andb].
    rewrite app_nil_r. reflexivity. }
  run_step. unfold lift. rewrite Hext. erewrite bind_run by reflexivity.
  cbn [negb andb].
  destruct d as [|e d].
  { run_step. eexists. split; [reflexivity|]. cbn [files].
    rewrite app_nil_r. reflexivity. }
  destruct (Nat.ltb_spec (PyDict.len (meaningful (e :: d))) 2) as [Hlt|Hge].
  { run_step. eexists. split; [reflexivity|]. cbn [files].
    rewrite (proj2 (Nat.leb_gt _ _) Hlt), app_nil_r. reflexivity. }
  rewrite (proj2 (Nat.leb_le _ _) Hge).
  run_step. run_step. run_step. unfold advance.
  cbn [node_counter edge_counter uuid_calls shuffle_calls stdout files].
  run_step. rewrite print_run. eexists. split; [reflexivity|]. reflexivity.
Qed.

Lemma process_columns_run (uuid4 : nat → string) (df : DataFrame)
    (output_dir : string) (rec : string → dict) :
  ∀ (col_indices : list nat) (labels : list string),
    Forall2 (λ i label, columns df !! i = Some label
                        ∧ extract_problem_data df label = Ok (rec label))
      col_indices labels →
    ∀ w, ∃ w' new,
      process_columns uuid4 df output_dir col_indices w = (Ok tt, w')
      ∧ files w' = files w ++ new
      ∧ Forall2 (λ f label,
                   ∃ u0, f = column_file uuid4 output_dir label (rec label) u0)
          new
          (List.filter (λ label, column_written label (rec label)) labels).
Proof.
  unfold process_columns.
  induction 1 as [|i label col_indices labels [Hcol Hext] _ IH]; intros w.
  - exists w, []. rewrite app_nil_r. repeat split. constructor.
  - cbn [for_each].
    destruct (process_column_run uuid4 df output_dir i label (rec label) w
                Hcol Hext) as (w1 & Hrun & Hfiles).
    erewrite bind_run by exact Hrun.
    destruct (IH w1) as (w' & new & Hloop & Hfiles' & Hnew).
    cbn [List.filter].
    destruct (column_written label (rec label)).
    + eexists w', (_ :: new). split; [exact Hloop|].
      split; [rewrite Hfiles', Hfiles, <- app_assoc; reflexivity|].
      constructor; [eexists; reflexivity|exact Hnew].
    + exists w', new. split; [exact Hloop|].
      split; [rewrite Hfiles', Hfiles, app_nil_r; reflexivity|exact Hnew].
Qed.

(** ** Trimming the table *)

Lemma mapM_ok {A B} (f : A → result B) (g : A → B) (l : list A) :
  Forall (λ x, f x = Ok (g x)) l → mapM f l = Ok (g <$> l).
Proof.
  induction 1 as [|x l Hx _ IH]; [reflexivity|].
  cbn [mapM]. rewrite Hx. cbn [mbind result_bind]. rewrite IH. reflexivity.
Qed.

Lemma get_zip_in (cols : list string) :
  ∀ (cells : list cell) (label : string),
    label ∈ cols → length cells = length cols →
    ∃ y, PD.get (zip cols cells) label = Some y.
Proof.
  induction cols as [|c cols IH]; intros cells label Hin Hlen.
  - apply elem_of_nil in Hin as [].
  - destruct cells as [|x cells]; [discriminate Hlen|].
    cbn [zip zip_with PD.get]. destruct (String.eqb_spec c label) as [->|Hne].
    + eauto.
    + apply elem_of_cons in Hin as [->|Hin]; [contradiction|].
      apply IH; [exact Hin|]. cbn [length] in Hlen. lia.
Qed.

Lemma getitem_cell_at (cols : list string) (cells : list cell)
    (label : string) :
  label ∈ cols → length cells = length cols →
  PD.getitem (zip cols cells) label = Ok (cell_at cols cells label).
Proof.
  intros Hin Hlen. unfold PD.getitem, cell_at.
  destruct (get_zip_in cols cells label Hin Hlen) as [y ->]. reflexivity.
Qed.

Lemma cell_at_lookup (cols : list string) (cells : list cell) (j : nat)
    (label : string) :
  NoDup cols → length cells = length cols → cols !! j = Some label →
  cells !! j = Some (cell_at cols cells label).
Proof.
  intros Hnd Hlen Hj. unfold cell_at.
  rewrite (get_zip cols cells j label Hnd Hlen Hj).
  destruct (lookup_lt_is_Some_2 cells j) as [y ->]; [|reflexivity].
  rewrite Hlen. exact (lookup_lt_Some _ _ _ Hj).
Qed.

Lemma select_ok (cols : list string) (rs : list (Z * list cell))
    (labels : list string) :
  (∀ label, label ∈ labels → label ∈ cols) →
  Forall (λ r, length r.2 = length cols) rs →
  PD.select (mkDataFrame cols rs) labels
  = Ok (mkDataFrame labels
          ((λ '(idx, cells), (idx, cell_at cols cells <$> labels)) <$> rs)).
Proof.
  intros Hsub Hrect. unfold PD.select. cbn [columns rows].
  rewrite (mapM_ok _ (λ '(idx, cells), (idx, cell_at cols cells <$> labels))).
  - reflexivity.
  - eapply Forall_impl; [exact Hrect|]. intros [idx cells] Hlen.
    cbn [snd] in Hlen.
    rewrite (mapM_ok _ (cell_at cols cells)); [reflexivity|].
    apply Forall_forall. intros label Hl.
    apply getitem_cell_at; auto.
Qed.

Lemma filter_fst_fmap {A} (p : A → bool) (l : list A) :
  (List.filter fst ((λ x, (p x, x)) <$> l)).*2 = List.filter p l.
Proof.
  induction l as [|x l IH]; [reflexivity|].
  rewrite fmap_cons. cbn [List.filter fst]. destruct (p x).
  - rewrite fmap_cons, IH. reflexivity.
  - exact IH.
Qed.

Lemma kept_rows_rect (df : DataFrame) :
  Forall (λ r, length r.2 = length (columns df)) (rows df) →
  Forall (λ r, length r.2 = length (columns df)) (kept_rows df).
Proof.
  intros H. apply Forall_forall. intros r Hr.
  apply list_elem_of_In, List.filter_In in Hr as [Hr _].
  apply list_elem_of_In in Hr. exact (proj1 (Forall_forall _ _) H r Hr).
Qed.

Lemma kept_columns_sub (df : DataFrame) (label : string) :
  label ∈ kept_columns df → label ∈ columns df.
Proof.
  unfold kept_columns. destruct (columns df) as [|c cs]; [trivial|].
  intros H. apply elem_of_cons in H as [->|H]; [left|right].
  apply list_elem_of_In, List.filter_In in H as [H _].
  apply list_elem_of_In, H.
Qed.

Lemma filter_sublist {A} (p : A → bool) (l : list A) :
  List.filter p l `sublist_of` l.
Proof.
  induction l as [|x l IH]; [constructor|].
  cbn [List.filter]. destruct (p x); [apply sublist_skip|apply sublist_cons];
    exact IH.
Qed.

Lemma kept_columns_NoDup (df : DataFrame) :
  NoDup (columns df) → NoDup (kept_columns df).
Proof.
  unfold kept_columns. destruct (columns df) as [|c cs]; [trivial|].
  intros Hnd. eapply sublist_NoDup; [exact Hnd|].
  apply sublist_skip, filter_sublist.
Qed.

(** The loop "Drop columns where the first cell (row 0) is empty or
    NaN", for columns of the table. *)
Lemma cols_to_keep_run (cols : list string) (rs : list (Z * list cell)) :
  Forall (λ r, length r.2 = length cols) rs →
  ∀ (l acc : list string) (w : World),
    (∀ col, col ∈ l → col ∈ cols) →
    for_each l
      (λ col cols_to_keep,
         first_cell ←
           match PD.iterrows (mkDataFrame cols rs) with
           | (_, row) :: _ => lift (PD.getitem row col)
           | [] => mret None
           end;
         if PD.notna first_cell
            && negb (String.eqb (Py.strip (PD.str first_cell)) "")
         then mret (cols_to_keep ++ [col])
         else mret cols_to_keep)
      acc w
    = (Ok (acc ++ List.filter
                    (λ col, match rs with
                            | [] => false
                            | (_, cells) :: _ => named (cell_at cols cells col)
                            end) l), w).
Proof.
  intros Hrect.
  match goal with |- ∀ l acc w, _ → for_each l ?b acc w = _ =>
    set (body := b) end.
  assert (Hbody : ∀ col acc w, col ∈ cols →
    body col acc w
    = (Ok (if match rs with
              | [] => false
              | (_, cells) :: _ => named (cell_at cols cells col)
              end
           then acc ++ [col] else acc), w)).
  { intros col acc w Hcol.
    unfold body, mbind, M_bind, bind, lift, mret, M_ret, ret, PD.iterrows.
    cbn [columns rows]. destruct rs as [|[idx cells] rs'].
    - reflexivity.
    - rewrite fmap_cons.
      apply Forall_cons in Hrect as [Hlen _]. cbn [snd] in Hlen.
      rewrite (getitem_cell_at cols cells col Hcol Hlen).
      fold (named (cell_at cols cells col)).
      destruct (named (cell_at cols cells col)); reflexivity. }
  clearbody body.
  induction l as [|col l IH]; intros acc w Hsub.
  - cbn [for_each List.filter]. rewrite app_nil_r. reflexivity.
  - cbn [for_each List.filter].
    erewrite bind_run by (apply Hbody, Hsub; left).
    rewrite IH by (intros c Hc; apply Hsub; right; exact Hc).
    destruct (match rs with [] => false | _ => _ end);
      rewrite <- ?app_assoc; reflexivity.
Qed.

Lemma kept_columns_eq (df : DataFrame) (c0 : string) :
  columns df !! 0%nat = Some c0 →
  kept_columns df
  = [c0] ++ List.filter
              (λ col, match kept_rows df with
                      | [] => false
                      | (_, cells) :: _ => named (cell_at (columns df) cells col)
                      end)
              (drop 1 (columns df)).
Proof.
  unfold kept_columns. destruct (columns df) as [|c cs]; [discriminate|].
  intros [= ->]. reflexivity.
Qed.

Lemma elem_of_drop_1 {A} (x : A) (l : list A) : x ∈ drop 1 l → x ∈ l.
Proof. destruct l; [trivial|]. cbn [drop]. rewrite drop_0. intros H. right. exact H. Qed.

Lemma process_table_run (uuid4 : nat → string) (df : DataFrame)
    (parent_dir : string) (output_dir : option string) (w : World) :
  NoDup (columns df) → columns df ≠ [] →
  Forall (λ r, length r.2 = length (columns df)) (rows df) →
  process_table uuid4 df parent_dir output_dir w
  = (process_columns uuid4 (trimmed df) (output_dir_of parent_dir output_dir)
       (seq 1 (length (kept_columns df) - 1));;
     print ("All files generated in: "
            +:+ output_dir_of parent_dir output_dir))
      (print_list "Column names: " (columns df) w).2.
Proof.
  intros Hnd Hne Hrect. unfold process_table.
  erewrite bind_run by apply print_list_run.
  rewrite print_list_run. cbn [snd].
  destruct (columns df !! 0%nat) as [c0|] eqn:Hc0.
  2:{ destruct (columns df); [contradiction|discriminate]. }
  assert (Hin0 : c0 ∈ columns df) by (eapply list_elem_of_lookup_2; exact Hc0).
  unfold index. rewrite Hc0. erewrite bind_run by reflexivity.
  rewrite (mapM_ok _ (λ r, (named (default None (r.2 !! 0%nat)), r))).
  2:{ eapply Forall_impl; [exact Hrect|]. intros [idx cells] Hlen.
      cbn [snd] in Hlen. cbv beta. cbn [snd].
      rewrite (getitem_cell_at _ _ _ Hin0 Hlen).
      pose proof (cell_at_lookup _ _ _ _ Hnd Hlen Hc0) as E.
      unfold cell in *. rewrite E. reflexivity. }
  unfold lift at 1. erewrite bind_run by reflexivity.
  cbv zeta. rewrite filter_fst_fmap. fold (kept_rows df). cbn [columns rows].
  erewrite bind_run.
  2:{ apply cols_to_keep_run; [apply kept_rows_rect, Hrect|].
      intros col. apply elem_of_drop_1. }
  rewrite <- (kept_columns_eq df c0 Hc0).
  rewrite select_ok.
  2:{ apply kept_columns_sub. }
  2:{ apply kept_rows_rect, Hrect. }
  unfold lift. erewrite bind_run by reflexivity.
  fold (trimmed df). reflexivity.
Qed.

Lemma truthy_eqb (s : string) : Py.truthy s = negb (String.eqb s "").
Proof. destruct s; reflexivity. Qed.

Lemma row_entry_unnamed (col_index : nat) (cells : list cell) :
  named (default None (cells !! 0%nat)) = false →
  row_entry col_index cells = None.
Proof.
  unfold row_entry, named. unfold cell in *.
  destruct (cells !! 0%nat) as [[name|]|]; cbn [default PD.notna PD.str andb id];
    try reflexivity.
  rewrite <- truthy_eqb. intros ->.
  destruct (cells !! col_index) as [[value|]|]; reflexivity.
Qed.

Lemma row_entry_trimmed (cols kept : list string) (cells : list cell)
    (j j' : nat) (c0 label : string) :
  NoDup cols → length cells = length cols →
  cols !! 0%nat = Some c0 → kept !! 0%nat = Some c0 →
  cols !! j = Some label → kept !! j' = Some label →
  row_entry j' (cell_at cols cells <$> kept) = row_entry j cells.
Proof.
  intros Hnd Hlen Hc0 Hk0 Hj Hj'. unfold row_entry.
  pose proof (cell_at_lookup _ _ _ _ Hnd Hlen Hc0) as E0.
  pose proof (cell_at_lookup _ _ _ _ Hnd Hlen Hj) as Ej.
  unfold cell in *.
  rewrite !list_lookup_fmap, Hk0, Hj', E0, Ej. reflexivity.
Qed.

Lemma extract_columns_ok (df : DataFrame) (label : string) :
  NoDup (columns df) →
  Forall (λ r, length r.2 = length (columns df)) (rows df) →
  label ∈ columns df →
  extract_problem_data df label = Ok (record_of df label).
Proof.
  intros Hnd Hrect Hin. unfold record_of.
  apply list_elem_of_lookup_1 in Hin as [j Hj].
  unfold extract_problem_data, PD.iterrows.
  rewrite (extract_rows_entries _ j label _ Hnd Hj Hrect). reflexivity.
Qed.

(** Trimming the table changes the record of no column that it keeps:
    the rows it drops are rows that the extractor skips. *)
Lemma extract_trimmed (df : DataFrame) (label : string) :
  NoDup (columns df) →
  Forall (λ r, length r.2 = length (columns df)) (rows df) →
  label ∈ kept_columns df →
  extract_problem_data (trimmed df) label = extract_problem_data df label.
Proof.
  intros Hnd Hrect Hin.
  pose proof (kept_columns_sub df label Hin) as Hin'.
  apply list_elem_of_lookup_1 in Hin as [j' Hj'].
  apply list_elem_of_lookup_1 in Hin' as [j Hj].
  destruct (columns df !! 0%nat) as [c0|] eqn:Hc0.
  2:{ destruct (columns df); [discriminate Hj|discriminate Hc0]. }
  assert (Hk0 : kept_columns df !! 0%nat = Some c0)
    by (rewrite (kept_columns_eq df c0 Hc0); reflexivity).
  unfold extract_problem_data, PD.iterrows, trimmed. cbn [columns rows].
  rewrite (extract_rows_entries (kept_columns df) j' label _
             (kept_columns_NoDup df Hnd) Hj').
  2:{ apply Forall_fmap, Forall_forall. intros [idx cells] _.
      cbn [snd]. apply length_fmap. }
  rewrite (extract_rows_entries _ j label _ Hnd Hj Hrect).
  do 2 f_equal. unfold kept_rows.
  induction Hrect as [|[idx cells] rs Hlen _ IH]; [reflexivity|].
  cbn [snd] in Hlen. cbn [List.filter snd]. rewrite (fmap_cons snd).
  cbn [omap list_omap snd].
  destruct (named (default None (cells !! 0%nat))) eqn:En.
  - rewrite !fmap_cons. cbn [omap list_omap snd].
    rewrite (row_entry_trimmed _ _ _ j j' c0 label Hnd Hlen Hc0 Hk0 Hj Hj').
    rewrite IH. reflexivity.
  - rewrite (row_entry_unnamed j cells En). exact IH.
Qed.

Lemma filter_filter {A} (p q : A → bool) (l : list A) :
  List.filter q (List.filter p l) = List.filter (λ x, p x && q x) l.
Proof.
  induction l as [|x l IH]; [reflexivity|].
  cbn [List.filter]. destruct (p x); cbn [andb List.filter];
    [destruct (q x)|]; rewrite IH; reflexivity.
Qed.

Lemma process_table_documents (uuid4 : nat → string) (df : DataFrame)
    (parent_dir : string) (output_dir : option string) (w : World) :
  NoDup (columns df) → columns df ≠ [] →
  Forall (λ r, length r.2 = length (columns df)) (rows df) →
  ∃ w' new,
    process_table uuid4 df parent_dir output_dir w = (Ok tt, w')
    ∧ files w' = files w ++ new
    ∧ Forall2 (λ f label,
                 ∃ u0, f = column_file uuid4
                             (output_dir_of parent_dir output_dir) label
                             (record_of df label) u0)
        new (documented_columns df).
Proof.
  intros Hnd Hne Hrect.
  rewrite (process_table_run uuid4 df parent_dir output_dir w Hnd Hne Hrect).
  rewrite print_list_run. cbn [snd].
  destruct (columns df !! 0%nat) as [c0|] eqn:Hc0.
  2:{ destruct (columns df); [contradiction|discriminate]. }
  assert (Hdrop : drop 1 (kept_columns df)
                  = List.filter (first_cell_named df) (drop 1 (columns df))).
  { rewrite (kept_columns_eq df c0 Hc0). reflexivity. }
  match goal with |- ∃ _ _, (_ ≫= _) ?w1 = _ ∧ _ =>
    destruct (process_columns_run uuid4 (trimmed df)
                (output_dir_of parent_dir output_dir) (record_of df)
                (seq 1 (length (kept_columns df) - 1))
                (drop 1 (kept_columns df))) with (w := w1)
      as (w' & new & Hloop & Hfiles & Hnew) end.
  { apply Forall2_same_length_lookup_2.
    - rewrite length_seq, length_drop. reflexivity.
    - intros i x label Hx Hl. apply lookup_seq in Hx as [-> _].
      rewrite lookup_drop in Hl. split; [exact Hl|].
      assert (Hin : label ∈ kept_columns df)
        by (eapply list_elem_of_lookup_2; exact Hl).
      rewrite (extract_trimmed df label Hnd Hrect Hin).
      apply extract_columns_ok; [exact Hnd|exact Hrect|].
      apply kept_columns_sub, Hin. }
  erewrite bind_run by exact Hloop. rewrite print_run.
  eexists _, new. split; [reflexivity|]. cbn [files] in *.
  split; [exact Hfiles|].
  rewrite Hdrop, filter_filter in Hnew. exact Hnew.
Qed.

(** ** The whole run *)

Section WholeRun.

Variable uuid4 : nat → string.
Variable jieba_cut : string → list string.
Variable random_shuffle : nat → list string → list string.
Variable df_sample : list (Z * list cell) → list (Z * list cell).

Lemma try_table (excel_path : string) (df : DataFrame) (parent_dir : string)
    (output_dir : option string) (w : World) :
  supported excel_path = true → is_translation excel_path df = false →
  ∃ line,
    process_excel_file_try uuid4 jieba_cut random_shuffle df_sample excel_path
      df parent_dir output_dir w
    = process_table uuid4 df parent_dir output_dir (print line w).2.
Proof.
  unfold supported, is_translation, process_excel_file_try. cbv zeta.
  intros Hs Ht.
  destruct (Py.endswith ".csv" (Py.lower excel_path)).
  { cbn [andb] in Ht. rewrite Ht.
    eexists. erewrite bind_run by apply print_run. reflexivity. }
  destruct (Py.endswith ".tsv" (Py.lower excel_path)
            || Py.endswith ".txt" (Py.lower excel_path)) eqn:E1.
  { eexists. erewrite bind_run by apply print_run. reflexivity. }
  destruct (Py.endswith ".xlsx" (Py.lower excel_path)
            || Py.endswith ".xls" (Py.lower excel_path)) eqn:E2.
  { eexists. erewrite bind_run by apply print_run. reflexivity. }
  apply orb_false_elim in E1 as [E1 E1'], E2 as [E2 E2'].
  rewrite E1, E1', E2, E2' in Hs. discriminate Hs.
Qed.

Lemma try_translation (excel_path : string) (df : DataFrame)
    (parent_dir : string) (output_dir : option string) :
  is_translation excel_path df = true →
  process_excel_file_try uuid4 jieba_cut random_shuffle df_sample excel_path
    df parent_dir output_dir
  = process_csv_language_translation uuid4 jieba_cut random_shuffle df_sample
      df parent_dir.
Proof.
  unfold is_translation, process_excel_file_try. cbv zeta. intros Ht.
  apply andb_true_iff in Ht as [-> ->]. reflexivity.
Qed.

Lemma try_unsupported (excel_path : string) (df : DataFrame)
    (parent_dir : string) (output_dir : option string) (w : World) :
  supported excel_path = false →
  process_excel_file_try uuid4 jieba_cut random_shuffle df_sample excel_path
    df parent_dir output_dir w
  = (Raise ValueError, w).
Proof.
  unfold supported, process_excel_file_try. cbv zeta. intros Hs.
  repeat (apply orb_false_elim in Hs as [Hs ?]).
  repeat match goal with H : Py.endswith _ _ = false |- _ => rewrite H; clear H end.
  reflexivity.
Qed.

Lemma process_table_no_column (df : DataFrame) (parent_dir : string)
    (output_dir : option string) (w : World) :
  columns df = [] →
  process_table uuid4 df parent_dir output_dir w
  = (Raise IndexError, (print_list "Column names: " [] w).2).
Proof.
  intros Hc. unfold process_table. rewrite Hc.
  erewrite bind_run by apply print_list_run. rewrite print_list_run.
  reflexivity.
Qed.

Lemma translation_has_columns (excel_path : string) (df : DataFrame) :
  is_translation excel_path df = true → columns df ≠ [].
Proof.
  unfold is_translation. intros Ht Hc. rewrite Hc in Ht.
  apply andb_true_iff in Ht as [_ Ht]. discriminate Ht.
Qed.

End WholeRun.





(** ** One row of a translation table *)

Lemma keys_numbered (before : string) (l : list string) :
  ∀ (i0 : nat) (d : dict),
    (∀ i : nat, (i0 ≤ i)%nat →
       before +:+ Py.str (Z.of_nat i + 1) ∉ PyDict.keys d) →
    PyDict.keys
      (foldl (λ d '(i, w), PyDict.set d (before +:+ Py.str (Z.of_nat i + 1)) w)
         d (Py.enumerate i0 l))
    = PyDict.keys d
      ++ ((λ i : nat, before +:+ Py.str (Z.of_nat i + 1))
            <$> seq i0 (length l)).
Proof.
  induction l as [|x l IH]; intros i0 d Hfresh.
  - cbn. rewrite app_nil_r. reflexivity.
  - rewrite enumerate_cons. cbn [foldl length seq]. rewrite fmap_cons.
    rewrite IH.
    + rewrite set_keys, bool_decide_eq_false_2 by (apply Hfresh; lia).
      rewrite <- app_assoc. reflexivity.
    + intros i Hi.
      rewrite set_keys, bool_decide_eq_false_2 by (apply Hfresh; lia).
      intros H. apply elem_of_app in H as [H|H].
      * exact (Hfresh i ltac:(lia) H).
      * apply list_elem_of_singleton, append_inj in H.
        apply (inj Py.str) in H. lia.
Qed.

(** The record that a translation row is turned into holds, in this
    order, the situation and the two relationships, one option-word-k per
    shuffled title and one person-a-word-k per token (k from 1), each
    once; looking a field up gives back the value that went in; and there
    is no formal-checkbox until the 2step copy adds it. *)
Theorem translation_record (situation rel_a rel_b : string)
    (titles words : list string) :
  let pd := problem_data_1step_of situation rel_a rel_b titles words in
  PyDict.keys pd
  = [ "situation-input"; "relationship-a-input"; "relationship-b-input" ]
    ++ ((λ k : nat, "option-word-" +:+ Py.str (Z.of_nat k + 1))
          <$> seq 0 (length titles))
    ++ ((λ k : nat, "person-a-word-" +:+ Py.str (Z.of_nat k + 1))
          <$> seq 0 (length words))
  ∧ NoDup (PyDict.keys pd)
  ∧ PyDict.get pd "situation-input" = Some situation
  ∧ PyDict.get pd "relationship-a-input" = Some rel_a
  ∧ PyDict.get pd "relationship-b-input" = Some rel_b
  ∧ (∀ k : nat, PyDict.get pd ("option-word-" +:+ Py.str (Z.of_nat k + 1))
                = titles !! k)
  ∧ (∀ k : nat, PyDict.get pd ("person-a-word-" +:+ Py.str (Z.of_nat k + 1))
                = words !! k)
  ∧ PyDict.get pd "formal-checkbox" = None
  ∧ ∀ formality,
      PyDict.get (PyDict.set pd "formal-checkbox" formality) "formal-checkbox"
      = Some formality.
Proof.
  cbv zeta.
  destruct (problem_data_lookup situation rel_a rel_b titles words)
    as (Hs & Ha & Hb & Hf & Ho & Hw).
  cbv zeta in *.
  assert (Hidx : ∀ i : nat, Z.to_nat (Z.of_nat i + 1 - 1) = i) by (intros; lia).
  assert (Hkeys :
    PyDict.keys (problem_data_1step_of situation rel_a rel_b titles words)
    = [ "situation-input"; "relationship-a-input"; "relationship-b-input" ]
      ++ ((λ k : nat, "option-word-" +:+ Py.str (Z.of_nat k + 1))
            <$> seq 0 (length titles))
      ++ ((λ k : nat, "person-a-word-" +:+ Py.str (Z.of_nat k + 1))
            <$> seq 0 (length words))).
  { unfold problem_data_1step_of. cbv zeta.
    assert (Hinner : ∀ i : nat, (0 ≤ i)%nat →
      "option-word-" +:+ Py.str (Z.of_nat i + 1)
      ∉ PyDict.keys
          (PyDict.set
             (PyDict.set (PyDict.set PyDict.empty "situation-input" situation)
                "relationship-a-input" rel_a)
             "relationship-b-input" rel_b)).
    { intros i _ H.
      change (PyDict.keys _)
        with ["situation-input"; "relationship-a-input";
              "relationship-b-input"] in H.
      repeat (apply elem_of_cons in H as [H|H]; [discriminate H|]).
      apply elem_of_nil in H as []. }
    rewrite keys_numbered.
    - rewrite (keys_numbered _ _ _ _ Hinner), <- app_assoc. reflexivity.
    - intros i _ H. rewrite (keys_numbered _ _ _ _ Hinner) in H.
      apply elem_of_app in H as [H|H].
      + change (PyDict.keys _)
          with ["situation-input"; "relationship-a-input";
                "relationship-b-input"] in H.
        repeat (apply elem_of_cons in H as [H|H]; [discriminate H|]).
        apply elem_of_nil in H as [].
      + apply list_elem_of_fmap in H as (k & H & _). discriminate H. }
  split; [exact Hkeys|]. split.
  { rewrite Hkeys. apply NoDup_app. split; [|split].
    - repeat (apply NoDup_cons; split;
              [intros H; repeat (apply elem_of_cons in H as [H|H];
                                 [discriminate H|]);
               apply elem_of_nil in H as []|]).
      apply NoDup_nil_2.
    - intros x Hx Hx'. apply elem_of_app in Hx' as [Hx'|Hx'];
        apply list_elem_of_fmap in Hx' as (k & -> & _);
        repeat (apply elem_of_cons in Hx as [Hx|Hx]; [discriminate Hx|]);
        apply elem_of_nil in Hx as [].
    - apply NoDup_app. split; [|split].
      + apply NoDup_fmap_2; [|apply NoDup_seq].
        intros i j H. apply append_inj in H. apply (inj Py.str) in H. lia.
      + intros x Hx Hx'.
        apply list_elem_of_fmap in Hx as (k & -> & _).
        apply list_elem_of_fmap in Hx' as (k' & H & _). discriminate H.
      + apply NoDup_fmap_2; [|apply NoDup_seq].
        intros i j H. apply append_inj in H. apply (inj Py.str) in H. lia. }
  split; [exact Hs|]. split; [exact Ha|]. split; [exact Hb|].
  split; [|split; [|split; [exact Hf|]]].
  - intros k. rewrite Ho, decide_True, Hidx by lia. reflexivity.
  - intros k. rewrite Hw, decide_True, Hidx by lia. reflexivity.
  - intros formality. rewrite dict_get_set, String.eqb_refl. reflexivity.
Qed.

Lemma strip_no_space (t : string) :
  Forall (λ c, Py.is_space c = false) (String.list_ascii_of_string t) →
  Py.strip t = t.
Proof.
  intros H. unfold Py.strip.
  assert (Hl : Py.lstrip t = t).
  { destruct t as [|c t]; [reflexivity|].
    cbn [String.list_ascii_of_string] in H. apply Forall_cons in H as [Hc _].
    cbn [Py.lstrip]. rewrite Hc. reflexivity. }
  rewrite Hl. clear Hl. induction t as [|c t IH]; [reflexivity|].
  cbn [String.list_ascii_of_string] in H. apply Forall_cons in H as [Hc Ht].
  cbn [Py.rstrip]. rewrite (IH Ht). destruct t; [rewrite Hc|]; reflexivity.
Qed.

Lemma split_go_tokens (s : string) :
  ∀ cur : list ascii,
    Forall (λ c, Py.is_space c = false) cur →
    Forall (λ t, t ≠ ""
                 ∧ Forall (λ c, Py.is_space c = false)
                     (String.list_ascii_of_string t))
      (Py.split_go cur s).
Proof.
  assert (Hflush : ∀ cur : list ascii,
    Forall (λ c, Py.is_space c = false) cur →
    Forall (λ t, t ≠ ""
                 ∧ Forall (λ c, Py.is_space c = false)
                     (String.list_ascii_of_string t))
      match cur with
      | [] => []
      | _ => [String.string_of_list_ascii (rev cur)]
      end).
  { intros [|c cur] Hcur; constructor; [|constructor]. split.
    - intros H. apply (f_equal String.list_ascii_of_string) in H.
      rewrite String.list_ascii_of_string_of_list_ascii in H.
      apply (f_equal (@length ascii)) in H.
      rewrite length_rev in H. discriminate H.
    - rewrite String.list_ascii_of_string_of_list_ascii.
      apply Forall_forall. intros x Hx. apply list_elem_of_In, in_rev in Hx.
      apply list_elem_of_In in Hx.
      exact (proj1 (Forall_forall _ _) Hcur x Hx). }
  induction s as [|c s IH]; intros cur Hcur.
  - cbn [Py.split_go]. apply Hflush, Hcur.
  - cbn [Py.split_go]. destruct (Py.is_space c) eqn:Ec.
    + apply Forall_app. split; [apply Hflush, Hcur|apply IH; constructor].
    + apply IH. constructor; assumption.
Qed.

(** The comprehension over [wrong_titles.split()] changes nothing: the
    tokens of [split] are not blank and carry no space around them, and
    an empty string has no token. *)
Lemma wrong_titles_list_eq (wrong_titles : string) :
  (if Py.truthy wrong_titles
   then Py.strip <$> List.filter (λ w, Py.truthy (Py.strip w))
                       (Py.split wrong_titles)
   else [])
  = Py.split wrong_titles.
Proof.
  destruct wrong_titles as [|c s]; [reflexivity|]. cbn [Py.truthy].
  pose proof (split_go_tokens (String c s) [] (Forall_nil_2 _)) as H.
  fold (Py.split (String c s)) in H.
  induction H as [|t ts [Ht Hsp] _ IH]; [reflexivity|].
  cbn [List.filter]. rewrite (strip_no_space t Hsp).
  destruct t; [contradiction|]. cbn [Py.truthy]. rewrite fmap_cons, IH.
  rewrite (strip_no_space _ Hsp). reflexivity.
Qed.


(** ** The split, for every table *)



(** ** Extraction from a column that the table lacks *)

Lemma get_zip_notin (cols : list string) :
  ∀ (cells : list cell) (label : string),
    label ∉ cols → PD.get (zip cols cells) label = None.
Proof.
  induction cols as [|c cols IH]; intros cells label Hnot; [reflexivity|].
  destruct cells as [|x cells]; [reflexivity|].
  apply not_elem_of_cons in Hnot as [Hne Hnot].
  cbn [zip zip_with PD.get]. destruct (String.eqb_spec c label) as [->|_];
    [contradiction|]. apply IH, Hnot.
Qed.

(** Asked for a column label that the table does not have,
    [extract_problem_data] raises KeyError as soon as a row has a name,
    and returns the empty record when no row has one: the column is only
    looked at for the rows that are named. *)
Theorem extract_missing_column (df : DataFrame) (problem_column : string) :
  problem_column ∉ columns df → columns df ≠ [] →
  Forall (λ r, length r.2 = length (columns df)) (rows df) →
  extract_problem_data df problem_column
  = if existsb (λ r, named (default None (r.2 !! 0%nat))) (rows df)
    then Raise KeyError else Ok PyDict.empty.
Proof.
  intros Hnot Hne Hrect. unfold extract_problem_data, PD.iterrows.
  generalize PyDict.empty.
  induction Hrect as [|[idx cells] rs Hlen _ IH]; intros d; [reflexivity|].
  cbn [snd] in Hlen. rewrite fmap_cons. cbn [extract_rows existsb snd].
  destruct (columns df) as [|c0 cols] eqn:Hcols; [contradiction|].
  destruct cells as [|x cells]; [discriminate Hlen|].
  unfold extract_row at 1. cbn [zip zip_with PD.iloc lookup list_lookup].
  cbn [mbind result_bind default id]. unfold named at 1.
  rewrite <- truthy_eqb.
  destruct (PD.notna x && Py.truthy (Py.strip (PD.str x))).
  - unfold PD.getitem.
    change ((c0, x) :: zip cols cells) with (zip (c0 :: cols) (x :: cells)).
    rewrite (get_zip_notin _ _ _ Hnot). reflexivity.
  - cbn [mbind result_bind orb]. apply IH.
Qed.

Lemma extract_missing_column_witness :
  extract_problem_data example_table "sq9" = Raise KeyError.
Proof.
  rewrite (extract_missing_column example_table "sq9").
  - reflexivity.
  - intros H. repeat (apply elem_of_cons in H as [H|H]; [discriminate H|]).
    apply elem_of_nil in H as [].
  - discriminate.
  - repeat constructor.
Defined.

(** ** The layout of a document *)

(** Every document is a stateGraph element with the same eleven
    attributes, whose children are the start messages, then all the nodes,
    then all the edges, then the EdgesGroups element.  Building it prints
    nothing and writes nothing, and the problem name has no part in it:
    the ProblemName of the start messages is always the text empty, and
    another name gives the same document. *)
Theorem document_layout (uuid4 : nat → string) (problem_data : dict)
    (problem_name : string) (w : World) :
  ∃ root w',
    generate_brd uuid4 problem_data problem_name w = (Ok root, w')
    ∧ ET.tag root = "stateGraph"
    ∧ ET.attrib root = root_attrib
    ∧ ET.children root
      = [start_messages] ++ Doc.nodes root ++ Doc.edges root ++ [edges_groups]
    ∧ ET.findtext ["message"; "properties"; "ProblemName"] start_messages
      = Some "empty"
    ∧ stdout w' = stdout w ∧ files w' = files w
    ∧ shuffle_calls w' = shuffle_calls w
    ∧ ∀ other_name,
        generate_brd uuid4 problem_data other_name w = (Ok root, w').
Proof.
  eexists _, _. split; [apply generate_brd_run|].
  rewrite graph_nodes, graph_edges.
  repeat split. intros other_name. apply generate_brd_run.
Qed.
